(** * django-idempotency-key: the middleware, embedded and verified

    A shallow embedding of [idempotency_key/middleware.py]: the two middleware
    classes [IdempotencyKeyMiddleware] (every non-safe request needs a key
    unless the view opts out) and [ExemptIdempotencyKeyMiddleware] (views opt
    in), their three hooks [process_request], [process_view] and
    [process_response], and the collaborators they call (key encoder, key
    storage, Django's dispatch of the view).

    Python objects that are shared and mutated are kept in an explicit heap:
    [process_view] assigns [response.status_code] on the very object that
    [retrieve_data] handed out, so whether a backend keeps references or
    copies is visible in the model.  Every call that the middleware makes on a
    collaborator is appended to a trace, so that "the encoder is not called"
    or "storage is never consulted" are statements about the trace. *)

From Stdlib Require Import ZArith Ascii String.
From stdpp Require Import base gmap strings list.

Local Open Scope Z_scope.

(** ** Python-side data *)

(** A reference to a response object: its index in the heap. *)
Abbreviation loc := nat.

(** [django.http.HttpResponse], as far as the middleware looks at it. *)
Record HttpResponse := {
  status_code : Z;
  content : string;
}.

Definition set_status_code (c : Z) (r : HttpResponse) : HttpResponse :=
  {| status_code := c; content := content r |}.

(** The attributes that the middleware hangs on the request object.  [None]
    is "the attribute is not there", which [getattr] with a default and a
    plain attribute access treat differently. *)
Record IdempotencyAttrs := {
  idempotency_key_done : option bool;
  idempotency_key_exempt : option bool;
  idempotency_key_manual : option bool;
  use_idempotency_key_manual_override : option bool;
  idempotency_key_encoded_key : option string;
  idempotency_key_exists : option bool;
  idempotency_key_response : option (option loc);
}.

Definition no_attrs : IdempotencyAttrs :=
  {| idempotency_key_done := None;
     idempotency_key_exempt := None;
     idempotency_key_manual := None;
     use_idempotency_key_manual_override := None;
     idempotency_key_encoded_key := None;
     idempotency_key_exists := None;
     idempotency_key_response := None |}.

(** [django.http.HttpRequest]: verb, path and body, the WSGI environment
    [META], and the attributes above. *)
Record HttpRequest := {
  method : string;
  path : string;
  body : string;
  META : gmap string string;
  attrs : IdempotencyAttrs;
}.

Definition with_attrs (f : IdempotencyAttrs → IdempotencyAttrs) (r : HttpRequest) : HttpRequest :=
  {| method := method r; path := path r; body := body r; META := META r;
     attrs := f (attrs r) |}.

Definition with_META (f : gmap string string → gmap string string) (r : HttpRequest) : HttpRequest :=
  {| method := method r; path := path r; body := body r; META := f (META r);
     attrs := attrs r |}.

Definition set_done (b : bool) (a : IdempotencyAttrs) : IdempotencyAttrs :=
  {| idempotency_key_done := Some b;
     idempotency_key_exempt := idempotency_key_exempt a;
     idempotency_key_manual := idempotency_key_manual a;
     use_idempotency_key_manual_override := use_idempotency_key_manual_override a;
     idempotency_key_encoded_key := idempotency_key_encoded_key a;
     idempotency_key_exists := idempotency_key_exists a;
     idempotency_key_response := idempotency_key_response a |}.

Definition set_exempt (b : bool) (a : IdempotencyAttrs) : IdempotencyAttrs :=
  {| idempotency_key_done := idempotency_key_done a;
     idempotency_key_exempt := Some b;
     idempotency_key_manual := idempotency_key_manual a;
     use_idempotency_key_manual_override := use_idempotency_key_manual_override a;
     idempotency_key_encoded_key := idempotency_key_encoded_key a;
     idempotency_key_exists := idempotency_key_exists a;
     idempotency_key_response := idempotency_key_response a |}.

Definition set_manual (b : bool) (a : IdempotencyAttrs) : IdempotencyAttrs :=
  {| idempotency_key_done := idempotency_key_done a;
     idempotency_key_exempt := idempotency_key_exempt a;
     idempotency_key_manual := Some b;
     use_idempotency_key_manual_override := use_idempotency_key_manual_override a;
     idempotency_key_encoded_key := idempotency_key_encoded_key a;
     idempotency_key_exists := idempotency_key_exists a;
     idempotency_key_response := idempotency_key_response a |}.

Definition set_manual_override (b : bool) (a : IdempotencyAttrs) : IdempotencyAttrs :=
  {| idempotency_key_done := idempotency_key_done a;
     idempotency_key_exempt := idempotency_key_exempt a;
     idempotency_key_manual := idempotency_key_manual a;
     use_idempotency_key_manual_override := Some b;
     idempotency_key_encoded_key := idempotency_key_encoded_key a;
     idempotency_key_exists := idempotency_key_exists a;
     idempotency_key_response := idempotency_key_response a |}.

Definition set_encoded_key (k : string) (a : IdempotencyAttrs) : IdempotencyAttrs :=
  {| idempotency_key_done := idempotency_key_done a;
     idempotency_key_exempt := idempotency_key_exempt a;
     idempotency_key_manual := idempotency_key_manual a;
     use_idempotency_key_manual_override := use_idempotency_key_manual_override a;
     idempotency_key_encoded_key := Some k;
     idempotency_key_exists := idempotency_key_exists a;
     idempotency_key_response := idempotency_key_response a |}.

Definition set_exists (b : bool) (a : IdempotencyAttrs) : IdempotencyAttrs :=
  {| idempotency_key_done := idempotency_key_done a;
     idempotency_key_exempt := idempotency_key_exempt a;
     idempotency_key_manual := idempotency_key_manual a;
     use_idempotency_key_manual_override := use_idempotency_key_manual_override a;
     idempotency_key_encoded_key := idempotency_key_encoded_key a;
     idempotency_key_exists := Some b;
     idempotency_key_response := idempotency_key_response a |}.

Definition set_response (r : option loc) (a : IdempotencyAttrs) : IdempotencyAttrs :=
  {| idempotency_key_done := idempotency_key_done a;
     idempotency_key_exempt := idempotency_key_exempt a;
     idempotency_key_manual := idempotency_key_manual a;
     use_idempotency_key_manual_override := use_idempotency_key_manual_override a;
     idempotency_key_encoded_key := idempotency_key_encoded_key a;
     idempotency_key_exists := idempotency_key_exists a;
     idempotency_key_response := Some r |}.

(** A view function and the attributes the decorators leave on it.  The
    route flags are booleans; [None] is an attribute that was never set. *)
Record ViewFunc := {
  vf_idempotency_key : option bool;
  vf_idempotency_key_exempt : option bool;
  vf_idempotency_key_manual : option bool;
}.

(** What the URL resolver hands to [process_view].  A Django REST framework
    viewset is a callback with an [actions] dict (lower-case verb to method
    name) and the viewset class [cls], whose methods carry the attributes. *)
Inductive Callback :=
| PlainView (f : ViewFunc)
| ViewSetView (f : ViewFunc) (actions : gmap string string) (cls : gmap string ViewFunc).

(** [settings.IDEMPOTENCY_KEY]: a dict with three optional entries.  The
    conflict status may be present and [None]. *)
Record IdempotencyKeySettings := {
  STORAGE_CLASS : option string;
  ENCODER_CLASS : option string;
  CONFLICT_STATUS_CODE : option (option Z);
}.

(** [dict()] *)
Definition empty_dict : IdempotencyKeySettings :=
  {| STORAGE_CLASS := None; ENCODER_CLASS := None; CONFLICT_STATUS_CODE := None |}.

(** [django.conf.settings]; the attribute [IDEMPOTENCY_KEY] may be missing. *)
Record Settings := {
  IDEMPOTENCY_KEY : option IdempotencyKeySettings;
}.

(** [rest_framework.status] *)
Definition HTTP_200_OK : Z := 200.
Definition HTTP_201_CREATED : Z := 201.
Definition HTTP_207_MULTI_STATUS : Z := 207.
Definition HTTP_400_BAD_REQUEST : Z := 400.
Definition HTTP_409_CONFLICT : Z := 409.

(** The exceptions that the middleware can let escape. *)
Inductive PyExc :=
| KeyError (key : string)
| AttributeError (name : string)
| ImproperlyConfigured (msg : string).

(** Calls on collaborators, in the order they happen. *)
Inductive Event :=
| EvEncodeKey (key : string)
| EvRetrieve (encoded_key : string)
| EvStore (encoded_key : string) (response : loc)
| EvView
| EvLogError (reason : string) (request_path : string).

(** The two middleware classes; the subclass only overrides
    [_set_flags_from_callback]. *)
Inductive MiddlewareClass :=
| IdempotencyKeyMiddleware
| ExemptIdempotencyKeyMiddleware.

(** [str.lower] on ASCII. *)
Definition lower_ascii (c : ascii) : ascii :=
  let n := nat_of_ascii c in
  if Nat.leb 65 n && Nat.leb n 90 then ascii_of_nat (n + 32) else c.

Fixpoint lower (s : string) : string :=
  match s with
  | EmptyString => EmptyString
  | String c s' => String (lower_ascii c) (lower s')
  end.

(** The verbs that RFC 7231 calls safe: the tuple in [process_view] and
    [process_response]. *)
Definition safe_methods : list string := ["GET"; "HEAD"; "OPTIONS"; "TRACE"]%string.

Definition is_safe_method (m : string) : bool := bool_decide (m ∈ safe_methods).

(** ** Settings lookups *)

Definition _get_storage_class (settings : Settings) : string :=
  let idkey_settings := default empty_dict (IDEMPOTENCY_KEY settings) in
  default "idempotency_key.storage.MemoryKeyStorage"%string (STORAGE_CLASS idkey_settings).

Definition _get_encoder_class (settings : Settings) : string :=
  let idkey_settings := default empty_dict (IDEMPOTENCY_KEY settings) in
  default "idempotency_key.encoders.BasicKeyEncoder"%string (ENCODER_CLASS idkey_settings).

(** The result is [None] when the setting is present and [None]. *)
Definition _get_conflict_code (settings : Settings) : option Z :=
  let idkey_settings := default empty_dict (IDEMPOTENCY_KEY settings) in
  default (Some HTTP_409_CONFLICT) (CONFLICT_STATUS_CODE idkey_settings).

(** ** Collaborators that are not part of the middleware module *)

(** [hashlib.sha256(...).hexdigest()], written out after FIPS 180-4 on
    32-bit words kept in [Z]. *)
Module SHA256.

Definition mask32 : Z := 0xffffffff.
Definition add32 (x y : Z) : Z := (x + y) mod 2 ^ 32.
Definition shr (n x : Z) : Z := Z.shiftr x n.
Definition rotr (n x : Z) : Z :=
  Z.lor (Z.shiftr x n) (Z.land (Z.shiftl x (32 - n)) mask32).
Definition Ch (x y z : Z) : Z :=
  Z.lxor (Z.land x y) (Z.land (Z.lxor x mask32) z).
Definition Maj (x y z : Z) : Z :=
  Z.lxor (Z.lxor (Z.land x y) (Z.land x z)) (Z.land y z).
Definition Sigma0 (x : Z) : Z := Z.lxor (Z.lxor (rotr 2 x) (rotr 13 x)) (rotr 22 x).
Definition Sigma1 (x : Z) : Z := Z.lxor (Z.lxor (rotr 6 x) (rotr 11 x)) (rotr 25 x).
Definition sigma0 (x : Z) : Z := Z.lxor (Z.lxor (rotr 7 x) (rotr 18 x)) (shr 3 x).
Definition sigma1 (x : Z) : Z := Z.lxor (Z.lxor (rotr 17 x) (rotr 19 x)) (shr 10 x).

(* The round constants and the initial hash value of FIPS 180-4 (sections
   4.2.2 and 5.3.3), as decimal numbers. *)
Definition K : list Z :=
  [ 1116352408; 1899447441; 3049323471; 3921009573; 961987163; 1508970993; 2453635748; 2870763221;
    3624381080; 310598401; 607225278; 1426881987; 1925078388; 2162078206; 2614888103; 3248222580;
    3835390401; 4022224774; 264347078; 604807628; 770255983; 1249150122; 1555081692; 1996064986;
    2554220882; 2821834349; 2952996808; 3210313671; 3336571891; 3584528711; 113926993; 338241895;
    666307205; 773529912; 1294757372; 1396182291; 1695183700; 1986661051; 2177026350; 2456956037;
    2730485921; 2820302411; 3259730800; 3345764771; 3516065817; 3600352804; 4094571909; 275423344;
    430227734; 506948616; 659060556; 883997877; 958139571; 1322822218; 1537002063; 1747873779;
    1955562222; 2024104815; 2227730452; 2361852424; 2428436474; 2756734187; 3204031479; 3329325298 ].

Definition H0 : list Z :=
  [ 1779033703; 3144134277; 1013904242; 2773480762; 1359893119; 2600822924; 528734635; 1541459225 ].

(* Padding: one 0x80 byte, zero bytes up to 56 mod 64, the bit length on 8 bytes. *)
Definition be_bytes (n : nat) (x : Z) : list Z :=
  map (fun i => Z.land (Z.shiftr x (8 * Z.of_nat i)) 0xff) (rev (seq 0 n)).

Definition pad (msg : list Z) : list Z :=
  let len := Z.of_nat (length msg) in
  let zeros := Z.to_nat ((55 - len) mod 64) in
  msg ++ [0x80] ++ repeat 0 zeros ++ be_bytes 8 (8 * len).

Definition word_of_bytes (bs : list Z) : Z :=
  fold_left (fun acc b => Z.lor (Z.shiftl acc 8) b) bs 0.

Fixpoint chunks (fuel : nat) (size : nat) (l : list Z) : list (list Z) :=
  match fuel with
  | O => []
  | S fuel' =>
      match l with
      | [] => []
      | _ => take size l :: chunks fuel' size (drop size l)
      end
  end.

Definition words_of_block (block : list Z) : list Z :=
  map word_of_bytes (chunks 16 4 block).

(* Message schedule: the window holds W[t-16] .. W[t-1]. *)
Fixpoint schedule (n : nat) (window : list Z) : list Z :=
  match n with
  | O => []
  | S n' =>
      let nxt :=
        add32 (add32 (sigma1 (nth 14 window 0)) (nth 9 window 0))
              (add32 (sigma0 (nth 1 window 0)) (nth 0 window 0)) in
      nxt :: schedule n' (drop 1 window ++ [nxt])
  end.

Definition round (st : list Z) (kw : Z * Z) : list Z :=
  match st with
  | [a; b; c; d; e; f; g; h] =>
      let t1 := add32 (add32 (add32 h (Sigma1 e)) (add32 (Ch e f g) kw.1)) kw.2 in
      let t2 := add32 (Sigma0 a) (Maj a b c) in
      [add32 t1 t2; a; b; c; add32 d t1; e; f; g]
  | _ => st
  end.

Definition compress (h : list Z) (block : list Z) : list Z :=
  let w16 := words_of_block block in
  let w := w16 ++ schedule 48 w16 in
  zip_with add32 h (fold_left round (zip K w) h).

Definition digest_words (msg : list Z) : list Z :=
  let p := pad msg in
  fold_left compress (chunks (length p) 64 p) H0.

Definition hex_digit (d : Z) : ascii :=
  nth (Z.to_nat d) (list_ascii_of_string "0123456789abcdef") "0"%char.

Definition hex_of_word (x : Z) : list ascii :=
  map (fun i => hex_digit (Z.land (Z.shiftr x (4 * Z.of_nat i)) 0xf)) (rev (seq 0 8)).

Definition bytes_of_string (s : string) : list Z :=
  map (fun c => Z.of_N (N_of_ascii c)) (list_ascii_of_string s).

Definition hexdigest (s : string) : string :=
  string_of_list_ascii (concat (map hex_of_word (digest_words (bytes_of_string s)))).

End SHA256.

(** The encoder interface: [encode_key(request, key)] gives the identity
    under which the response is filed. *)
Record KeyEncoder := {
  encode_key : HttpRequest → string → string;
}.


(** The storage interface.  [retrieve_data] answers with the existence flag
    and the response (it may have to build a new object, so it returns the
    heap too); [store_data] files a response under a key. *)
Class KeyStorage (S : Type) := {
  retrieve_data : S → list HttpResponse → string → bool * option loc * list HttpResponse;
  store_data : S → list HttpResponse → string → loc → S;
}.

(** Modelled from the spec: [idempotency_key/storage.py] is not among the
    sources.  Section 4.2: the in-memory backend is "a mapping held for the
    lifetime of the process; no eviction".  A Python mapping keeps the
    response object that was handed to it, not a copy. *)
Record MemoryKeyStorage := {
  idempotency_key_cache_data : gmap string loc;
}.

#[global] Instance MemoryKeyStorage_storage : KeyStorage MemoryKeyStorage := {|
  retrieve_data s h encoded_key :=
    match idempotency_key_cache_data s !! encoded_key with
    | Some l => (true, Some l, h)
    | None => (false, None, h)
    end;
  store_data s h encoded_key response :=
    {| idempotency_key_cache_data := <[encoded_key := response]> (idempotency_key_cache_data s) |};
|}.

(** Modelled from the spec: [idempotency_key/storage.py] is not among the
    sources.  Section 4.2: the shared-cache backend "delegates to an external
    generic cache service (get/set semantics)".  A cache serialises what it
    is given: [set] files a copy of the response as it is at that moment, and
    every [get] builds a new object from that copy. *)
Record CacheKeyStorage := {
  the_cache : gmap string HttpResponse;
}.

#[global] Instance CacheKeyStorage_storage : KeyStorage CacheKeyStorage := {|
  retrieve_data s h encoded_key :=
    match the_cache s !! encoded_key with
    | Some r => (true, Some (length h), h ++ [r])
    | None => (false, None, h)
    end;
  store_data s h encoded_key response :=
    match h !! response with
    | Some r => {| the_cache := <[encoded_key := r]> (the_cache s) |}
    | None => s
    end;
|}.

(** The view behind the route: it reads the request (with the attributes the
    middleware has set) and builds a response. *)
Definition View := HttpRequest → HttpResponse.

(** [rest_framework.exceptions.bad_request]: a JSON response with status 400. *)
Definition bad_request : HttpResponse :=
  {| status_code := HTTP_400_BAD_REQUEST; content := "Bad Request (400)" |}.

(** ** State and effects *)

(** What a hook can read and change: the request object, the heap of
    response objects, the storage backend held by the middleware instance,
    and the trace of calls made so far. *)
Record State (S : Type) := {
  st_request : HttpRequest;
  st_heap : list HttpResponse;
  st_storage : S;
  st_trace : list Event;
}.
Arguments st_request {S} _.
Arguments st_heap {S} _.
Arguments st_storage {S} _.
Arguments st_trace {S} _.

Inductive Result (A : Type) :=
| Ok (a : A)
| Raise (e : PyExc).
Arguments Ok {A} a.
Arguments Raise {A} e.

(** A hook either returns or raises; what it did to the state before raising
    stays done. *)
Definition M (S A : Type) : Type := State S → Result A * State S.

#[global] Instance M_ret {S} : MRet (M S) := λ A a st, (Ok a, st).

#[global] Instance M_bind {S} : MBind (M S) := λ A B f m st,
  match m st with
  | (Ok a, st') => f a st'
  | (Raise e, st') => (Raise e, st')
  end.

Definition raise {S A} (e : PyExc) : M S A := λ st, (Raise e, st).

(** A computation that does not touch the state. *)
Definition lift {S A} (r : Result A) : M S A := λ st, (r, st).

Definition get_request {S} : M S HttpRequest := λ st, (Ok (st_request st), st).

Definition modify_request {S} (f : HttpRequest → HttpRequest) : M S unit := λ st,
  (Ok tt, {| st_request := f (st_request st); st_heap := st_heap st;
             st_storage := st_storage st; st_trace := st_trace st |}).

Definition setattr {S} (f : IdempotencyAttrs → IdempotencyAttrs) : M S unit :=
  modify_request (with_attrs f).

(** Plain attribute access: [AttributeError] when the attribute is missing. *)
Definition attr {S A} (name : string) (proj : IdempotencyAttrs → option A) : M S A := λ st,
  match proj (attrs (st_request st)) with
  | Some v => (Ok v, st)
  | None => (Raise (AttributeError name), st)
  end.

Definition log {S} (e : Event) : M S unit := λ st,
  (Ok tt, {| st_request := st_request st; st_heap := st_heap st;
             st_storage := st_storage st; st_trace := st_trace st ++ [e] |}).

(** A new response object. *)
Definition alloc {S} (r : HttpResponse) : M S loc := λ st,
  (Ok (length (st_heap st)),
   {| st_request := st_request st; st_heap := st_heap st ++ [r];
      st_storage := st_storage st; st_trace := st_trace st |}).

(** [response.status_code]; an object that is no response has no such
    attribute. *)
Definition read_status_code {S} (response : loc) : M S Z := λ st,
  match st_heap st !! response with
  | Some r => (Ok (status_code r), st)
  | None => (Raise (AttributeError "status_code"), st)
  end.

(** [response.status_code = c], in place. *)
Definition write_status_code {S} (response : option loc) (c : Z) : M S unit := λ st,
  match response with
  | Some l =>
      match st_heap st !! l with
      | Some r =>
          (Ok tt, {| st_request := st_request st;
                     st_heap := <[l := set_status_code c r]> (st_heap st);
                     st_storage := st_storage st; st_trace := st_trace st |})
      | None => (Raise (AttributeError "status_code"), st)
      end
  | None => (Raise (AttributeError "status_code"), st)
  end.

(** [self.storage.retrieve_data(encoded_key)] *)
Definition storage_retrieve_data {S} `{!KeyStorage S} (encoded_key : string)
  : M S (bool * option loc) := λ st,
  let '(key_exists, response, h) := retrieve_data (st_storage st) (st_heap st) encoded_key in
  (Ok (key_exists, response),
   {| st_request := st_request st; st_heap := h;
      st_storage := st_storage st; st_trace := st_trace st ++ [EvRetrieve encoded_key] |}).

(** [self.storage.store_data(encoded_key, response)] *)
Definition storage_store_data {S} `{!KeyStorage S} (encoded_key : string) (response : loc)
  : M S unit := λ st,
  (Ok tt,
   {| st_request := st_request st; st_heap := st_heap st;
      st_storage := store_data (st_storage st) (st_heap st) encoded_key response;
      st_trace := st_trace st ++ [EvStore encoded_key response] |}).

(** The first lines of both [_set_flags_from_callback]:

    [if hasattr(callback, 'actions'):
         callback = getattr(callback.cls, callback.actions[request.method.lower()], callback)]

    The subscript raises [KeyError] when the viewset has no action for the
    verb; [getattr] falls back on the callback itself. *)
Definition resolve_callback (request : HttpRequest) (callback : Callback) : Result ViewFunc :=
  match callback with
  | PlainView f => Ok f
  | ViewSetView f actions cls =>
      match actions !! lower (method request) with
      | Some name => Ok (default f (cls !! name))
      | None => Raise (KeyError (lower (method request)))
      end
  end.

(** Truth value of an attribute fetched with default [None]. *)
Definition truthy (v : option bool) : bool := default false v.

(** [a or b] where [b] is a boolean: [a] itself when it is true. *)
Definition py_or (a : option bool) (b : bool) : bool :=
  if truthy a then true else b.

(** ** The middleware *)

(** The message of the [ImproperlyConfigured] error in [process_response]. *)
Definition process_view_not_called : string :=
  "Idempotency key middleware's 'process_view' function was not called! There maybe another middleware stopping this from happening which means your functions will not be properly protected with idempotency keys.".

Section middleware.
Context {S : Type} `{!KeyStorage S}.

(** [django.conf.settings], the class of the middleware instance and its
    [self.encoder]; [self.storage] is the backend state in [State]. *)
Variable settings : Settings.
Variable self_class : MiddlewareClass.
Variable self_encoder : KeyEncoder.

(** [_reject(request, reason)] *)
Definition _reject (reason : string) : M S loc :=
  response ← alloc bad_request;
  request ← get_request;
  log (EvLogError reason (path request));;
  mret response.

(** [IdempotencyKeyMiddleware._set_flags_from_callback] *)
Definition _set_flags_from_callback (callback : Callback) : M S unit :=
  request ← get_request;
  callback ← lift (resolve_callback request callback);
  setattr (set_exempt (default false (vf_idempotency_key_exempt callback)));;
  setattr (set_manual (default false (vf_idempotency_key_manual callback))).

(** [ExemptIdempotencyKeyMiddleware._set_flags_from_callback] *)
Definition Exempt_set_flags_from_callback (callback : Callback) : M S unit :=
  request ← get_request;
  callback ← lift (resolve_callback request callback);
  let idempotency_key := vf_idempotency_key callback in
  let idempotency_key_exempt := vf_idempotency_key_exempt callback in
  let idempotency_key_manual := default false (vf_idempotency_key_manual callback) in
  setattr (set_exempt
    (py_or idempotency_key_exempt
       (bool_decide (idempotency_key_exempt = None)
        && negb idempotency_key_manual && negb (truthy idempotency_key))));;
  setattr (set_manual idempotency_key_manual).

(** [self._set_flags_from_callback]: the method of the instance's class. *)
Definition self_set_flags_from_callback (callback : Callback) : M S unit :=
  match self_class with
  | IdempotencyKeyMiddleware => _set_flags_from_callback callback
  | ExemptIdempotencyKeyMiddleware => Exempt_set_flags_from_callback callback
  end.

(** [process_request] *)
Definition process_request : M S unit :=
  request ← get_request;
  match META request !! "HTTP_IDEMPOTENCY_KEY" with
  | Some key => modify_request (with_META <["IDEMPOTENCY_KEY" := key]>)
  | None => mret tt
  end;;
  setattr (set_done false).

(** [process_view]; the result is the response to send instead of calling
    the view, or [None]. *)
Definition process_view (callback : Callback) : M S (option loc) :=
  self_set_flags_from_callback callback;;
  setattr (set_done true);;
  exempt ← attr "idempotency_key_exempt" idempotency_key_exempt;
  request ← get_request;
  if (exempt : bool) || is_safe_method (method request) then
    setattr (set_exempt true);;
    mret None
  else
    setattr (set_exempt false);;
    match META request !! "IDEMPOTENCY_KEY" with
    | None =>
        response ← _reject "Idempotency key is required and was not specified in the header.";
        mret (Some response)
    | Some key =>
        manual ← attr "idempotency_key_manual" idempotency_key_manual;
        (if (manual : bool) return M S unit then setattr (set_manual_override true) else mret tt);;
        request ← get_request;
        log (EvEncodeKey key);;
        let encoded_key := encode_key self_encoder request key in
        setattr (set_encoded_key encoded_key);;
        '(key_exists, response) ← storage_retrieve_data encoded_key;
        setattr (set_exists key_exists);;
        setattr (set_response response);;
        manual ← attr "idempotency_key_manual" idempotency_key_manual;
        if negb manual && (key_exists : bool) then
          match _get_conflict_code settings with
          | Some status_code => write_status_code response status_code
          | None => mret tt
          end;;
          mret response
        else
          mret None
    end.

(** [200 <= response.status_code <= 207] *)
Definition is_stored_status (c : Z) : bool :=
  (HTTP_200_OK <=? c) && (c <=? HTTP_207_MULTI_STATUS).

(** [process_response] *)
Definition process_response (response : loc) : M S loc :=
  request ← get_request;
  if negb (default false (idempotency_key_done (attrs request))) then
    raise (ImproperlyConfigured process_view_not_called)
  else if default true (idempotency_key_exempt (attrs request)) then
    mret response
  else
    (if negb (is_safe_method (method request)) return M S unit then
       status ← read_status_code response;
       if is_stored_status status then
         encoded_key ← attr "idempotency_key_encoded_key" idempotency_key_encoded_key;
         storage_store_data encoded_key response
       else mret tt
     else mret tt);;
    mret response.

(** Django's dispatch as this middleware sees it from [self.get_response]:
    the route is resolved to [callback], [process_view] is called, and the
    view runs only when [process_view] returned [None].  An exception of
    [process_view] is passed on as it is (Django would turn it into a 500
    response). *)
Definition get_response (callback : Callback) (view : View) : M S loc :=
  response ← process_view callback;
  match response with
  | Some response => mret response
  | None =>
      request ← get_request;
      log EvView;;
      alloc (view request)
  end.

(** [__call__], with [self.get_response] as a parameter. *)
Definition __call__ (self_get_response : M S loc) : M S loc :=
  process_request;;
  response ← self_get_response;
  process_response response.

End middleware.

(** A request arriving at the middleware: [st_request] is replaced, the rest
    of the state (heap, storage, trace) lives on. *)
Definition with_request {S} (request : HttpRequest) (st : State S) : State S :=
  {| st_request := request; st_heap := st_heap st;
     st_storage := st_storage st; st_trace := st_trace st |}.

(** The response object behind a reference. *)
Definition response_at {S} (st : State S) (l : loc) : option HttpResponse :=
  st_heap st !! l.

(** ** Vocabulary of the statements *)

(** The value that [self._set_flags_from_callback] gives to
    [request.idempotency_key_exempt], for the view function [f] that the
    callback resolves to. *)
Definition resolved_exempt (cls : MiddlewareClass) (f : ViewFunc) : bool :=
  match cls with
  | IdempotencyKeyMiddleware => default false (vf_idempotency_key_exempt f)
  | ExemptIdempotencyKeyMiddleware =>
      py_or (vf_idempotency_key_exempt f)
        (bool_decide (vf_idempotency_key_exempt f = None)
         && negb (default false (vf_idempotency_key_manual f))
         && negb (truthy (vf_idempotency_key f)))
  end.

(** The value it gives to [request.idempotency_key_manual]. *)
Definition resolved_manual (f : ViewFunc) : bool :=
  default false (vf_idempotency_key_manual f).

(** The request when [process_view] has decided on exemption (lines 75 to
    86): both flags set, [idempotency_key_done] true. *)
Definition request_after_flags (f : ViewFunc) (exempt : bool) (request : HttpRequest)
  : HttpRequest :=
  with_attrs
    (λ a, set_exempt exempt (set_done true (set_manual (resolved_manual f) (set_exempt exempt a))))
    request.

(** The request that [encode_key] receives. *)
Definition request_at_encoding (f : ViewFunc) (request : HttpRequest) : HttpRequest :=
  with_attrs
    (if resolved_manual f then set_manual_override true else id)
    (request_after_flags f false request).

(** The request after the storage lookup (line 104). *)
Definition request_after_lookup (f : ViewFunc) (encoded_key : string) (key_exists : bool)
    (response : option loc) (request : HttpRequest) : HttpRequest :=
  with_attrs
    (λ a, set_response response (set_exists key_exists (set_encoded_key encoded_key a)))
    (request_at_encoding f request).

(** State updates. *)
Definition with_heap {S} (h : list HttpResponse) (st : State S) : State S :=
  {| st_request := st_request st; st_heap := h;
     st_storage := st_storage st; st_trace := st_trace st |}.

Definition with_storage {S} (s : S) (st : State S) : State S :=
  {| st_request := st_request st; st_heap := st_heap st;
     st_storage := s; st_trace := st_trace st |}.

Definition traced {S} (events : list Event) (st : State S) : State S :=
  {| st_request := st_request st; st_heap := st_heap st;
     st_storage := st_storage st; st_trace := st_trace st ++ events |}.

(** The events of a run that call the storage backend. *)
Definition is_storage_event (e : Event) : bool :=
  match e with
  | EvRetrieve _ | EvStore _ _ => true
  | _ => false
  end.

Definition is_store_event (e : Event) : bool :=
  match e with
  | EvStore _ _ => true
  | _ => false
  end.

Definition reject_reason : string :=
  "Idempotency key is required and was not specified in the header.".

(** The events that a run has added to the trace. *)
Definition new_events {S} (before after : State S) : list Event :=
  drop (length (st_trace before)) (st_trace after).

(** The request as [process_request] leaves it. *)
Definition request_after_process_request (request : HttpRequest) : HttpRequest :=
  with_attrs (set_done false)
    match META request !! "HTTP_IDEMPOTENCY_KEY" with
    | Some key => with_META <["IDEMPOTENCY_KEY" := key]> request
    | None => request
    end.

(** ** Closed forms of the hooks

    What [process_view] and [process_response] come to once the binds are
    run; the theorems below first show that the hooks equal these forms. *)

Section closed_forms.
Context {S : Type} `{!KeyStorage S}.
Variable settings : Settings.
Variable self_class : MiddlewareClass.
Variable self_encoder : KeyEncoder.

Definition process_view_summary (callback : Callback) (st : State S)
  : Result (option loc) * State S :=
  let request := st_request st in
  match resolve_callback request callback with
  | Raise e => (Raise e, st)
  | Ok f =>
      if resolved_exempt self_class f || is_safe_method (method request) then
        (Ok None, with_request (request_after_flags f true request) st)
      else
        match META request !! "IDEMPOTENCY_KEY" with
        | None =>
            (Ok (Some (length (st_heap st))),
             traced [EvLogError reject_reason (path request)]
               (with_heap (st_heap st ++ [bad_request])
                  (with_request (request_after_flags f false request) st)))
        | Some key =>
            let encoded_key := encode_key self_encoder (request_at_encoding f request) key in
            let '(key_exists, response, h) :=
              retrieve_data (st_storage st) (st_heap st) encoded_key in
            let st1 :=
              traced [EvEncodeKey key; EvRetrieve encoded_key]
                (with_heap h
                   (with_request
                      (request_after_lookup f encoded_key key_exists response request) st)) in
            if negb (resolved_manual f) && key_exists then
              match _get_conflict_code settings with
              | Some c =>
                  match response with
                  | Some l =>
                      match h !! l with
                      | Some r => (Ok (Some l), with_heap (<[l := set_status_code c r]> h) st1)
                      | None => (Raise (AttributeError "status_code"), st1)
                      end
                  | None => (Raise (AttributeError "status_code"), st1)
                  end
              | None => (Ok response, st1)
              end
            else (Ok None, st1)
        end
  end.

Definition process_response_summary (response : loc) (st : State S)
  : Result loc * State S :=
  let request := st_request st in
  if negb (default false (idempotency_key_done (attrs request))) then
    (Raise (ImproperlyConfigured process_view_not_called), st)
  else if default true (idempotency_key_exempt (attrs request)) then (Ok response, st)
  else if is_safe_method (method request) then (Ok response, st)
  else
    match st_heap st !! response with
    | None => (Raise (AttributeError "status_code"), st)
    | Some r =>
        if is_stored_status (status_code r) then
          match idempotency_key_encoded_key (attrs request) with
          | Some encoded_key =>
              (Ok response,
               traced [EvStore encoded_key response]
                 (with_storage
                    (store_data (st_storage st) (st_heap st) encoded_key response) st))
          | None => (Raise (AttributeError "idempotency_key_encoded_key"), st)
          end
        else (Ok response, st)
    end.

End closed_forms.

(** ** Words of the specification *)

(** "The matched route explicitly opts in, directly (via an idempotency_key
    attribute or an explicit idempotency_key_exempt=False) or via the
    manual-override flag". *)
Definition opts_in (f : ViewFunc) : bool :=
  truthy (vf_idempotency_key f)
  || bool_decide (vf_idempotency_key_exempt f = Some false)
  || resolved_manual f.


(** The result recorded under a key, for the two backends. *)
Definition memory_recorded (st : State MemoryKeyStorage) (encoded_key : string)
  : option HttpResponse :=
  l ← idempotency_key_cache_data (st_storage st) !! encoded_key;
  st_heap st !! l.

Definition cache_recorded (st : State CacheKeyStorage) (encoded_key : string)
  : option HttpResponse :=
  the_cache (st_storage st) !! encoded_key.

(** ** The scenario of the tests *)

Module Scenario.

(** [TestMiddlewareExempt.the_key] *)
Definition the_key : string := "7495e32b-709b-4fae-bfd4-2497094bf3fd".

(** The posted form; the body stands for the test client's encoding of
    [voucher_data]. *)
Definition voucher_data : string := "id=1&name=myvoucher0&internal_name=myvoucher0".

Definition client_request (verb p : string) (headers : gmap string string) : HttpRequest :=
  {| method := verb; path := p; body := voucher_data; META := headers; attrs := no_attrs |}.

(** [client.post(p, voucher_data, secure=True, HTTP_IDEMPOTENCY_KEY=the_key)] *)
Definition keyed_post (p : string) : HttpRequest :=
  client_request "POST" p {[ "HTTP_IDEMPOTENCY_KEY"%string := the_key ]}.

(** [client.post(p, secure=True)] *)
Definition keyless_post (p : string) : HttpRequest := client_request "POST" p ∅.

(** View functions by the decorators they carry. *)
Definition undecorated : ViewFunc :=
  {| vf_idempotency_key := None; vf_idempotency_key_exempt := None;
     vf_idempotency_key_manual := None |}.

Definition decorated_idempotency_key : ViewFunc :=
  {| vf_idempotency_key := Some true; vf_idempotency_key_exempt := None;
     vf_idempotency_key_manual := None |}.

Definition decorated_manual : ViewFunc :=
  {| vf_idempotency_key := None; vf_idempotency_key_exempt := None;
     vf_idempotency_key_manual := Some true |}.

Definition decorated_key_and_exempt : ViewFunc :=
  {| vf_idempotency_key := Some true; vf_idempotency_key_exempt := Some true;
     vf_idempotency_key_manual := None |}.

(** A viewset routed for POST only. *)
Definition voucher_viewset : Callback :=
  ViewSetView undecorated {[ "post"%string := "create"%string ]}
    {[ "create"%string := undecorated ]}.

(** Views answering 201 and 500. *)
Definition create_voucher : View :=
  λ _, {| status_code := HTTP_201_CREATED; content := voucher_data |}.

Definition failing : View :=
  λ _, {| status_code := 500; content := "Server Error (500)" |}.

(** "The view code forces a 200 OK to be returned if this is a repeated
    request" (test_middleware_duplicate_request_manual_override). *)
Definition create_voucher_manual : View :=
  λ request,
    {| status_code :=
         if default false (idempotency_key_exists (attrs request))
         then HTTP_200_OK else HTTP_201_CREATED;
       content := voucher_data |}.

(** Settings of the tests: none, [IDEMPOTENCY_KEY={}], and the two
    overrides of the conflict status. *)
Definition no_settings : Settings := {| IDEMPOTENCY_KEY := None |}.


Definition conflict_status (c : option Z) : Settings :=
  {| IDEMPOTENCY_KEY :=
       Some {| STORAGE_CLASS := None; ENCODER_CLASS := None;
               CONFLICT_STATUS_CODE := Some c |} |}.

(** A process that has served nothing yet. *)
Definition memory_start : State MemoryKeyStorage :=
  {| st_request := keyless_post "/"; st_heap := [];
     st_storage := {| idempotency_key_cache_data := ∅ |}; st_trace := [] |}.

Definition cache_start : State CacheKeyStorage :=
  {| st_request := keyless_post "/"; st_heap := [];
     st_storage := {| the_cache := ∅ |}; st_trace := [] |}.

(** One request through the middleware. *)
Definition client {S} `{!KeyStorage S} (settings : Settings) (cls : MiddlewareClass)
    (enc : KeyEncoder) (callback : Callback) (view : View) (request : HttpRequest)
    (st : State S) : Result loc * State S :=
  __call__ (get_response settings cls enc callback view) (with_request request st).







(** The encoder of [test_middleware_custom_encoder]: every key is filed
    under sixty-four zeros. *)
Definition MyEncoder : KeyEncoder :=
  {| encode_key := λ _ _,
       "0000000000000000000000000000000000000000000000000000000000000000" |}.

(** A request as [process_view] meets it: [process_request] has run. *)
Definition arrived {S} (request : HttpRequest) (st : State S) : State S :=
  with_request (request_after_process_request request) st.

(** What [MyEncoder] files every key under. *)
Definition zeros : string :=
  "0000000000000000000000000000000000000000000000000000000000000000".

(** The response of [create_voucher]. *)
Definition created : HttpResponse :=
  {| status_code := HTTP_201_CREATED; content := voucher_data |}.

(** The process after one keyed POST to an undecorated view, with the
    deny-by-default class, [MyEncoder] and the in-memory backend. *)
Definition after_first_post : State MemoryKeyStorage :=
  (client no_settings IdempotencyKeyMiddleware MyEncoder (PlainView undecorated)
     create_voucher (keyed_post "/create-voucher/") memory_start).2.

End Scenario.

(** ** Sequences of requests *)




(** * Theorems *)


(** ** Running the hooks *)

Ltac run_monad :=
  cbv [ mbind mret M_bind M_ret lift raise get_request modify_request setattr attr log alloc
        storage_retrieve_data storage_store_data read_status_code write_status_code ].

Lemma state_eq {S} (r1 r2 : HttpRequest) (h1 h2 : list HttpResponse) (s1 s2 : S)
    (t1 t2 : list Event) :
  r1 = r2 → h1 = h2 → s1 = s2 → t1 = t2 →
  {| st_request := r1; st_heap := h1; st_storage := s1; st_trace := t1 |} =
  {| st_request := r2; st_heap := h2; st_storage := s2; st_trace := t2 |}.
Proof. by intros -> -> -> ->. Qed.

Ltac close_run :=
  cbn; unfold traced, with_storage, with_heap, with_request;
  cbn [st_request st_heap st_storage st_trace];
  first
    [ reflexivity
    | f_equal; apply state_eq;
      [ reflexivity | reflexivity | reflexivity
      | rewrite <- ?app_assoc, ?app_nil_r; reflexivity ] ].

Lemma new_events_traced {S} (st st' : State S) (events : list Event) :
  st_trace st' = st_trace st ++ events → new_events st st' = events.
Proof. intros E. unfold new_events. rewrite E. apply drop_app_length. Qed.

Lemma new_events_same {S} (st st' : State S) :
  st_trace st' = st_trace st → new_events st st' = [].
Proof. intros E. apply new_events_traced. by rewrite app_nil_r. Qed.

Section runs.
Context {S : Type} `{!KeyStorage S}.
Variables (settings : Settings) (cls : MiddlewareClass) (enc : KeyEncoder).

Lemma set_flags_run callback (st : State S) :
  self_set_flags_from_callback cls callback st =
    match resolve_callback (st_request st) callback with
    | Ok f =>
        (Ok tt,
         with_request
           (with_attrs
              (λ a, set_manual (resolved_manual f) (set_exempt (resolved_exempt cls f) a))
              (st_request st)) st)
    | Raise e => (Raise e, st)
    end.
Proof.
  unfold self_set_flags_from_callback, _set_flags_from_callback,
    Exempt_set_flags_from_callback.
  destruct cls; run_monad; destruct (resolve_callback _ _); reflexivity.
Qed.

Lemma process_request_run (st : State S) :
  process_request st =
    (Ok tt, with_request (request_after_process_request (st_request st)) st).
Proof.
  unfold process_request, request_after_process_request. run_monad.
  destruct (META (st_request st) !! "HTTP_IDEMPOTENCY_KEY"); reflexivity.
Qed.

Lemma process_view_run callback (st : State S) :
  process_view settings cls enc callback st =
    process_view_summary settings cls enc callback st.
Proof.
  unfold process_view, process_view_summary.
  unfold mbind at 1. unfold M_bind at 1. rewrite set_flags_run.
  destruct (resolve_callback (st_request st) callback) as [f|e]; [|reflexivity].
  run_monad. cbn.
  destruct (resolved_exempt cls f || is_safe_method (method (st_request st)));
    [reflexivity|].
  destruct (META (st_request st) !! "IDEMPOTENCY_KEY") as [key|]; [|reflexivity].
  cbn. unfold request_after_lookup, request_at_encoding, request_after_flags.
  destruct (resolved_manual f) eqn:Hm; cbn;
    destruct (retrieve_data (st_storage st) (st_heap st) _) as [[key_exists response] h];
    cbn.
  - close_run.
  - destruct key_exists; cbn; [|close_run].
    destruct (_get_conflict_code settings) as [c|]; cbn; [|close_run].
    destruct response as [l|]; cbn; [|close_run].
    destruct (h !! l); close_run.
Qed.

Lemma process_response_run response (st : State S) :
  process_response response st = process_response_summary response st.
Proof.
  unfold process_response, process_response_summary. run_monad.
  destruct (negb (default false (idempotency_key_done (attrs (st_request st)))));
    [reflexivity|].
  destruct (default true (idempotency_key_exempt (attrs (st_request st))));
    [reflexivity|].
  destruct (is_safe_method (method (st_request st))); cbn; [reflexivity|].
  destruct (st_heap st !! response) as [r|]; [|reflexivity].
  destruct (is_stored_status (status_code r)); [|reflexivity].
  destruct (idempotency_key_encoded_key (attrs (st_request st))); reflexivity.
Qed.

(** The view runs exactly when [process_view] returns [None]. *)
Lemma get_response_run callback view (st : State S) :
  get_response settings cls enc callback view st =
    match process_view settings cls enc callback st with
    | (Ok (Some response), st') => (Ok response, st')
    | (Ok None, st') =>
        (Ok (length (st_heap st')),
         traced [EvView] (with_heap (st_heap st' ++ [view (st_request st')]) st'))
    | (Raise e, st') => (Raise e, st')
    end.
Proof.
  unfold get_response. unfold mbind at 1. unfold M_bind at 1.
  destruct (process_view settings cls enc callback st) as [[[l|]|e] st']; reflexivity.
Qed.

Lemma call_run (g : M S loc) (st : State S) :
  __call__ g st =
    match g (with_request (request_after_process_request (st_request st)) st) with
    | (Ok response, st') => process_response response st'
    | (Raise e, st') => (Raise e, st')
    end.
Proof.
  unfold __call__. unfold mbind at 1. unfold M_bind at 1. rewrite process_request_run.
  reflexivity.
Qed.

End runs.

(** [process_request] gives the key of the header to [process_view], and no
    key when there is no header (and the environment has no entry
    [IDEMPOTENCY_KEY] of its own). *)
Lemma process_request_key (request : HttpRequest) :
  META (request_after_process_request request) !! "IDEMPOTENCY_KEY" =
    match META request !! "HTTP_IDEMPOTENCY_KEY" with
    | Some key => Some key
    | None => META request !! "IDEMPOTENCY_KEY"
    end.
Proof.
  unfold request_after_process_request.
  destruct (META request !! "HTTP_IDEMPOTENCY_KEY") as [key|]; cbn; [|done].
  apply lookup_insert_eq.
Qed.

(** ** Runs through a whole request *)

(** The short circuit of [process_view], with the state it leaves. *)
Lemma process_view_short_circuit_run
    {S} `{!KeyStorage S} (settings : Settings) (cls : MiddlewareClass) (enc : KeyEncoder)
    (callback : Callback) (st : State S) (f : ViewFunc) (key : string)
    (l : loc) (r : HttpResponse) (h : list HttpResponse) :
  resolve_callback (st_request st) callback = Ok f →
  resolved_exempt cls f = false →
  is_safe_method (method (st_request st)) = false →
  META (st_request st) !! "IDEMPOTENCY_KEY" = Some key →
  resolved_manual f = false →
  retrieve_data (st_storage st) (st_heap st)
    (encode_key enc (request_at_encoding f (st_request st)) key) = (true, Some l, h) →
  h !! l = Some r →
  process_view settings cls enc callback st =
    (Ok (Some l),
     with_heap
       match _get_conflict_code settings with
       | Some c => <[l := set_status_code c r]> h
       | None => h
       end
       (traced
          [EvEncodeKey key;
           EvRetrieve (encode_key enc (request_at_encoding f (st_request st)) key)]
          (with_request
             (request_after_lookup f
                (encode_key enc (request_at_encoding f (st_request st)) key)
                true (Some l) (st_request st)) st))).
Proof.
  intros Hf He Hs Hk Hm Hr Hl.
  rewrite process_view_run. unfold process_view_summary.
  rewrite Hf, He, Hs, Hk. cbn. rewrite Hr, Hm. cbn.
  destruct (_get_conflict_code settings) as [c|]; [rewrite Hl|]; reflexivity.
Qed.

Lemma set_status_code_same (r : HttpResponse) : set_status_code (status_code r) r = r.
Proof. by destruct r. Qed.

Lemma is_stored_status_range (c : Z) : is_stored_status c = true ↔ 200 ≤ c ≤ 207.
Proof. unfold is_stored_status, HTTP_200_OK, HTTP_207_MULTI_STATUS. lia. Qed.

(** [__call__] on a keyed request that is not exempt and is let through to
    the view (manual route, or key not recorded). *)
Lemma call_proceeds_run
    {S} `{!KeyStorage S} (settings : Settings) (cls : MiddlewareClass) (enc : KeyEncoder)
    (callback : Callback) (view : View) (st : State S) (f : ViewFunc) (key : string)
    (key_exists : bool) (response : option loc) (h : list HttpResponse) :
  let request := request_after_process_request (st_request st) in
  let encoded_key := encode_key enc (request_at_encoding f request) key in
  let request2 := request_after_lookup f encoded_key key_exists response request in
  let r := view request2 in
  let st1 :=
    traced [EvEncodeKey key; EvRetrieve encoded_key; EvView]
      (with_heap (h ++ [r]) (with_request request2 st)) in
  resolve_callback request callback = Ok f →
  resolved_exempt cls f = false →
  is_safe_method (method request) = false →
  META request !! "IDEMPOTENCY_KEY" = Some key →
  retrieve_data (st_storage st) (st_heap st) encoded_key = (key_exists, response, h) →
  negb (resolved_manual f) && key_exists = false →
  __call__ (get_response settings cls enc callback view) st =
    (Ok (length h),
     if is_stored_status (status_code r)
     then traced [EvStore encoded_key (length h)]
            (with_storage (store_data (st_storage st) (h ++ [r]) encoded_key (length h)) st1)
     else st1).
Proof.
  cbn zeta. intros Hf He Hs Hk Hr Hgo.
  rewrite call_run, get_response_run, process_view_run. unfold process_view_summary.
  cbn [st_request with_request st_heap st_storage]. rewrite Hf, He, Hs, Hk. cbn zeta.
  rewrite Hr. cbn [orb]. rewrite Hgo. cbn [st_heap st_request traced with_heap with_request].
  rewrite process_response_run. unfold process_response_summary.
  cbn [st_request traced with_heap with_request st_heap st_storage].
  set (request := request_after_process_request (st_request st)) in *.
  set (encoded_key := encode_key enc (request_at_encoding f request) key) in *.
  assert (Ha :
    idempotency_key_done
      (attrs (request_after_lookup f encoded_key key_exists response request)) = Some true ∧
    idempotency_key_exempt
      (attrs (request_after_lookup f encoded_key key_exists response request)) = Some false ∧
    idempotency_key_encoded_key
      (attrs (request_after_lookup f encoded_key key_exists response request))
      = Some encoded_key).
  { unfold request_after_lookup, request_at_encoding, request_after_flags.
    by destruct (resolved_manual f). }
  destruct Ha as (-> & -> & ->). cbn [default negb].
  change (method (request_after_lookup f encoded_key key_exists response request))
    with (method request).
  rewrite Hs, lookup_app_r, Nat.sub_diag by done. cbn [lookup list_lookup].
  destruct (is_stored_status _); close_run.
Qed.

(** [__call__] on a request that [process_view] answers from storage. *)
Lemma call_short_circuit_run
    {S} `{!KeyStorage S} (settings : Settings) (cls : MiddlewareClass) (enc : KeyEncoder)
    (callback : Callback) (view : View) (st : State S) (f : ViewFunc) (key : string)
    (l : loc) (r : HttpResponse) (h : list HttpResponse) :
  let request := request_after_process_request (st_request st) in
  let encoded_key := encode_key enc (request_at_encoding f request) key in
  let status := default (status_code r) (_get_conflict_code settings) in
  let st1 :=
    traced [EvEncodeKey key; EvRetrieve encoded_key]
      (with_heap (<[l := set_status_code status r]> h)
         (with_request (request_after_lookup f encoded_key true (Some l) request) st)) in
  resolve_callback request callback = Ok f →
  resolved_exempt cls f = false →
  is_safe_method (method request) = false →
  META request !! "IDEMPOTENCY_KEY" = Some key →
  resolved_manual f = false →
  retrieve_data (st_storage st) (st_heap st) encoded_key = (true, Some l, h) →
  h !! l = Some r →
  __call__ (get_response settings cls enc callback view) st =
    (Ok l,
     if is_stored_status status
     then traced [EvStore encoded_key l]
            (with_storage
               (store_data (st_storage st) (<[l := set_status_code status r]> h)
                  encoded_key l) st1)
     else st1).
Proof.
  cbn zeta. intros Hf He Hs Hk Hm Hr Hl.
  set (request := request_after_process_request (st_request st)) in *.
  set (encoded_key := encode_key enc (request_at_encoding f request) key) in *.
  set (status := default (status_code r) (_get_conflict_code settings)).
  pose proof (process_view_short_circuit_run settings cls enc callback
                (with_request request st) f key l r h Hf He Hs Hk Hm Hr Hl) as Hpv.
  cbn [st_request with_request] in Hpv. fold encoded_key in Hpv.
  assert (Hheap : match _get_conflict_code settings with
                  | Some c => <[l := set_status_code c r]> h
                  | None => h
                  end = <[l := set_status_code status r]> h).
  { subst status. destruct (_get_conflict_code settings) as [c|]; cbn; [done|].
    rewrite set_status_code_same. symmetry. by apply list_insert_id. }
  rewrite Hheap in Hpv. clear Hheap.
  assert (Hlook : <[l := set_status_code status r]> h !! l = Some (set_status_code status r)).
  { apply list_lookup_insert_eq. by eapply lookup_lt_Some. }
  rewrite call_run. fold request. rewrite get_response_run, Hpv, process_response_run.
  unfold process_response_summary.
  cbn [st_request traced with_heap with_request st_heap st_storage].
  assert (Ha : attrs (request_after_lookup f encoded_key true (Some l) request) =
               set_response (Some l) (set_exists true (set_encoded_key encoded_key
                 (set_exempt false (set_done true (set_manual false
                   (set_exempt false (attrs request)))))))).
  { cbn. unfold request_at_encoding. by rewrite Hm. }
  rewrite Ha. cbn [idempotency_key_done idempotency_key_exempt idempotency_key_encoded_key
                   set_response set_exists set_encoded_key set_exempt set_done default negb].
  change (method (request_after_lookup f encoded_key true (Some l) request))
    with (method request).
  rewrite Hs, Hlook. cbn [status_code set_status_code].
  destruct (is_stored_status status); close_run.
Qed.

Ltac finish_returns :=
  repeat split; try done;
  try (intros ?; eexists _, _; repeat split; try done; eauto).

(** Whenever [process_view] returns, the flags are set, storage is as it
    was, and for a request that is not exempt the request either had no key
    (and the answer is the rejection) or carries the encoded key and the
    outcome of the lookup. *)
Lemma process_view_returns
    {S} `{!KeyStorage S} (settings : Settings) (cls : MiddlewareClass) (enc : KeyEncoder)
    (callback : Callback) (st st' : State S) (res : option loc) :
  process_view settings cls enc callback st = (Ok res, st') →
  ∃ f,
    resolve_callback (st_request st) callback = Ok f ∧
    let a := attrs (st_request st') in
    let exempt := resolved_exempt cls f || is_safe_method (method (st_request st)) in
    st_storage st' = st_storage st ∧
    method (st_request st') = method (st_request st) ∧
    META (st_request st') = META (st_request st) ∧
    idempotency_key_done a = Some true ∧
    idempotency_key_exempt a = Some exempt ∧
    idempotency_key_manual a = Some (resolved_manual f) ∧
    (exempt = true → res = None ∧ st' = with_request (st_request st') st) ∧
    (exempt = false →
       match META (st_request st) !! "IDEMPOTENCY_KEY" with
       | None => res = Some (length (st_heap st))
       | Some key =>
           let encoded_key := encode_key enc (request_at_encoding f (st_request st)) key in
           ∃ key_exists response,
             idempotency_key_encoded_key a = Some encoded_key ∧
             idempotency_key_exists a = Some key_exists ∧
             idempotency_key_response a = Some response ∧
             (res = None → resolved_manual f = true ∨ key_exists = false ∨ response = None)
       end).
Proof.
  rewrite process_view_run. unfold process_view_summary.
  destruct (resolve_callback (st_request st) callback) as [f|e]; [|done].
  intros Hrun. exists f. split; [done|]. cbn zeta.
  destruct (resolved_exempt cls f || is_safe_method (method (st_request st))) eqn:Hex.
  { injection Hrun as <- <-. by repeat split. }
  destruct (META (st_request st) !! "IDEMPOTENCY_KEY") as [key|] eqn:Hk.
  2: { injection Hrun as <- <-. by repeat split. }
  destruct (retrieve_data _ _ _) as [[key_exists response] h].
  assert (Hm :
    idempotency_key_manual
      (attrs (request_after_lookup f
         (encode_key enc (request_at_encoding f (st_request st)) key)
         key_exists response (st_request st))) = Some (resolved_manual f)).
  { cbn. unfold request_at_encoding. by destruct (resolved_manual f). }
  assert (He : idempotency_key_exempt
      (attrs (request_after_lookup f
         (encode_key enc (request_at_encoding f (st_request st)) key)
         key_exists response (st_request st))) = Some false).
  { cbn. unfold request_at_encoding. by destruct (resolved_manual f). }
  assert (Hd : idempotency_key_done
      (attrs (request_after_lookup f
         (encode_key enc (request_at_encoding f (st_request st)) key)
         key_exists response (st_request st))) = Some true).
  { cbn. unfold request_at_encoding. by destruct (resolved_manual f). }
  assert (Hme : method (request_after_lookup f
         (encode_key enc (request_at_encoding f (st_request st)) key)
         key_exists response (st_request st)) = method (st_request st)) by done.
  assert (Hmt : META (request_after_lookup f
         (encode_key enc (request_at_encoding f (st_request st)) key)
         key_exists response (st_request st)) = META (st_request st)) by done.
  destruct (resolved_manual f) eqn:Hman; cbn in Hrun.
  - injection Hrun as <- <-. cbn [st_request traced with_heap with_request st_storage].
    finish_returns.
  - destruct key_exists.
    + destruct (_get_conflict_code settings) as [c|].
      * destruct response as [l|]; [|done]. destruct (h !! l); [|done].
        injection Hrun as <- <-. cbn [st_request traced with_heap with_request st_storage].
        finish_returns.
      * injection Hrun as <- <-. cbn [st_request traced with_heap with_request st_storage].
        finish_returns.
    + injection Hrun as <- <-. cbn [st_request traced with_heap with_request st_storage].
      finish_returns.
Qed.

(** ** The encoded key of a request that is not exempt *)








(** ** Short circuit on a recorded key *)

(** C1. A request that is not exempt, carries a key whose encoded form is
    found in storage, and is routed to a view without the manual flag, is
    answered by [process_view] itself: the view is not called, the answer is
    the stored response object with its content as it was, and its status
    code is now the configured conflict status: 409 when there is no
    IDEMPOTENCY_KEY setting or no CONFLICT_STATUS_CODE in it, the configured
    code when there is one, and the status the response had when the setting
    is None.  No other response object is touched and storage is not
    written. *)
Theorem process_view_short_circuits
    {S} `{!KeyStorage S} (settings : Settings) (cls : MiddlewareClass) (enc : KeyEncoder)
    (callback : Callback) (view : View) (st : State S) (f : ViewFunc) (key : string)
    (l : loc) (r : HttpResponse) (h : list HttpResponse) :
  resolve_callback (st_request st) callback = Ok f →
  resolved_exempt cls f = false →
  is_safe_method (method (st_request st)) = false →
  META (st_request st) !! "IDEMPOTENCY_KEY" = Some key →
  resolved_manual f = false →
  retrieve_data (st_storage st) (st_heap st)
    (encode_key enc (request_at_encoding f (st_request st)) key) = (true, Some l, h) →
  h !! l = Some r →
  ∃ st' r',
    process_view settings cls enc callback st = (Ok (Some l), st') ∧
    get_response settings cls enc callback view st = (Ok l, st') ∧
    new_events st st' =
      [EvEncodeKey key;
       EvRetrieve (encode_key enc (request_at_encoding f (st_request st)) key)] ∧
    st_storage st' = st_storage st ∧
    response_at st' l = Some r' ∧
    content r' = content r ∧
    status_code r' =
      match IDEMPOTENCY_KEY settings with
      | None => 409
      | Some idkey_settings =>
          match CONFLICT_STATUS_CODE idkey_settings with
          | None => 409
          | Some (Some c) => c
          | Some None => status_code r
          end
      end ∧
    (∀ l', l' ≠ l → st_heap st' !! l' = h !! l').
Proof.
  intros Hf He Hs Hk Hm Hr Hl.
  pose proof (process_view_short_circuit_run settings cls enc callback st f key l r h
                Hf He Hs Hk Hm Hr Hl) as Hpv.
  assert (Hlt : (l < length h)%nat) by (by eapply lookup_lt_Some).
  eexists _, (match _get_conflict_code settings with
              | Some c => set_status_code c r
              | None => r
              end).
  split; [exact Hpv|].
  split; [rewrite get_response_run, Hpv; reflexivity|].
  split; [by apply new_events_traced|].
  split; [reflexivity|].
  unfold response_at. cbn [st_heap with_heap].
  split; [|split; [|split]].
  - destruct (_get_conflict_code settings) as [c|]; [by apply list_lookup_insert_eq|exact Hl].
  - by destruct (_get_conflict_code settings).
  - unfold _get_conflict_code.
    destruct (IDEMPOTENCY_KEY settings) as [idkey_settings|]; cbn; [|reflexivity].
    by destruct (CONFLICT_STATUS_CODE idkey_settings) as [[c|]|].
  - intros l' Hne.
    destruct (_get_conflict_code settings) as [c|]; [by apply list_lookup_insert_ne|done].
Qed.

Lemma process_view_short_circuits_witness :
  ∃ st' r',
    process_view Scenario.no_settings IdempotencyKeyMiddleware Scenario.MyEncoder
      (PlainView Scenario.undecorated)
      (Scenario.arrived (Scenario.keyed_post "/create-voucher/") Scenario.after_first_post)
    = (Ok (Some 0%nat), st') ∧
    response_at st' 0%nat = Some r' ∧
    content r' = Scenario.voucher_data ∧
    status_code r' = 409.
Proof.
  destruct (process_view_short_circuits Scenario.no_settings IdempotencyKeyMiddleware
              Scenario.MyEncoder (PlainView Scenario.undecorated) Scenario.create_voucher
              (Scenario.arrived (Scenario.keyed_post "/create-voucher/")
                 Scenario.after_first_post)
              Scenario.undecorated Scenario.the_key 0%nat Scenario.created
              [Scenario.created])
    as (st' & r' & Hrun & _ & _ & _ & Hresp & Hcontent & Hstatus & _);
    [vm_compute; reflexivity..|].
  exists st', r'. split; [exact Hrun|]. split; [exact Hresp|].
  split; [exact Hcontent|exact Hstatus].
Defined.

(** ** What [process_response] stores *)

(** C2. When [process_view] has returned [None] and the view has produced
    its response, [process_response] returns that response, and calls
    [store_data] on it, under the encoded key, exactly when the request is not
    exempt, its verb is not safe and the status code lies between 200 (OK)
    and 207 (Multi-Status) inclusive; otherwise the state, and so the storage
    backend, is left as it was. *)
Theorem handler_response_stored_iff
    {S} `{!KeyStorage S} (settings : Settings) (cls : MiddlewareClass) (enc : KeyEncoder)
    (callback : Callback) (view : View) (st0 st1 : State S) :
  process_view settings cls enc callback st0 = (Ok None, st1) →
  let l := length (st_heap st1) in
  let r := view (st_request st1) in
  let st2 := traced [EvView] (with_heap (st_heap st1 ++ [r]) st1) in
  let a := attrs (st_request st1) in
  let stored :=
    idempotency_key_exempt a = Some false ∧
    is_safe_method (method (st_request st1)) = false ∧
    200 ≤ status_code r ≤ 207 in
  get_response settings cls enc callback view st0 = (Ok l, st2) ∧
  ∃ st3,
    process_response l st2 = (Ok l, st3) ∧
    ((∃ encoded_key, EvStore encoded_key l ∈ new_events st2 st3) ↔ stored) ∧
    (stored →
       ∃ encoded_key,
         idempotency_key_encoded_key a = Some encoded_key ∧
         st3 = traced [EvStore encoded_key l]
                 (with_storage (store_data (st_storage st2) (st_heap st2) encoded_key l) st2)) ∧
    (¬ stored → st3 = st2 ∧ st_storage st3 = st_storage st0).
Proof.
  intros Hrun. cbn zeta.
  split; [by rewrite get_response_run, Hrun|].
  pose proof (process_view_returns _ _ _ _ _ _ _ Hrun) as (f & Hf & Hinv).
  cbn zeta in Hinv. destruct Hinv as (Hst & Hme & _ & Hd & He & _ & _ & Hkeyed).
  rewrite process_response_run. unfold process_response_summary.
  cbn [st_request traced with_heap st_heap]. rewrite Hd, He. cbn [default negb].
  destruct (resolved_exempt cls f || is_safe_method (method (st_request st0))) eqn:Hex.
  { eexists. split; [done|]. split; [|split].
    - split; [|by intros [? _]]. intros [k Hin].
      rewrite new_events_same in Hin by done. by apply elem_of_nil in Hin.
    - by intros [? _].
    - done. }
  apply orb_false_elim in Hex as [_ Hsafe]. rewrite Hme, Hsafe.
  specialize (Hkeyed eq_refl).
  destruct (META (st_request st0) !! "IDEMPOTENCY_KEY") as [key|]; [|done].
  destruct Hkeyed as (key_exists & response & Hek & _).
  rewrite lookup_app_r, Nat.sub_diag by done. cbn [lookup list_lookup].
  destruct (is_stored_status (status_code (view (st_request st1)))) eqn:Hrange.
  - rewrite Hek. apply is_stored_status_range in Hrange.
    eexists. split; [done|]. split; [|split].
    + split; [done|]. intros _. eexists.
      erewrite new_events_traced by reflexivity. by apply list_elem_of_singleton.
    + intros _. eauto.
    + intros Hn. exfalso. by apply Hn.
  - assert (Hn : ¬ 200 ≤ status_code (view (st_request st1)) ≤ 207).
    { rewrite <- is_stored_status_range. by rewrite Hrange. }
    eexists. split; [done|]. split; [|split].
    + split; [|by intros (_ & _ & ?)]. intros [k Hin].
      rewrite new_events_same in Hin by done. by apply elem_of_nil in Hin.
    + by intros (_ & _ & ?).
    + done.
Qed.

Lemma handler_response_stored_iff_witness :
  let st0 :=
    Scenario.arrived (Scenario.keyed_post "/create-voucher/") Scenario.memory_start in
  (get_response Scenario.no_settings IdempotencyKeyMiddleware Scenario.MyEncoder
     (PlainView Scenario.undecorated) Scenario.create_voucher st0).1 = Ok 0%nat.
Proof.
  cbn zeta.
  destruct (handler_response_stored_iff Scenario.no_settings IdempotencyKeyMiddleware
              Scenario.MyEncoder (PlainView Scenario.undecorated) Scenario.create_voucher
              (Scenario.arrived (Scenario.keyed_post "/create-voucher/")
                 Scenario.memory_start)
              (process_view Scenario.no_settings IdempotencyKeyMiddleware
                 Scenario.MyEncoder (PlainView Scenario.undecorated)
                 (Scenario.arrived (Scenario.keyed_post "/create-voucher/")
                    Scenario.memory_start)).2)
    as [Hrun _]; [vm_compute; reflexivity|].
  rewrite Hrun. reflexivity.
Defined.

(** ** Rejection of a missing key *)

(** A request that is not exempt and has no entry [IDEMPOTENCY_KEY] in
    [META] is answered by [process_view] with a new 400 response; nothing but
    the error log is called (no encoder, no storage, no view).  And this is
    the only way in which [process_view] logs a rejection: whenever a run of
    it adds a rejection to the trace, the request was not exempt and had no
    such entry. *)
Lemma process_view_rejects_missing_key
    {S} `{!KeyStorage S} (settings : Settings) (cls : MiddlewareClass) (enc : KeyEncoder)
    (callback : Callback) (view : View) (st : State S) :
  (∀ f,
     resolve_callback (st_request st) callback = Ok f →
     resolved_exempt cls f = false →
     is_safe_method (method (st_request st)) = false →
     META (st_request st) !! "IDEMPOTENCY_KEY" = None →
     ∃ l st',
       process_view settings cls enc callback st = (Ok (Some l), st') ∧
       get_response settings cls enc callback view st = (Ok l, st') ∧
       response_at st' l = Some bad_request ∧
       status_code bad_request = 400 ∧
       new_events st st' = [EvLogError reject_reason (path (st_request st))] ∧
       st_storage st' = st_storage st) ∧
  (∀ reason p,
     EvLogError reason p ∈ new_events st (process_view settings cls enc callback st).2 →
     ∃ f,
       resolve_callback (st_request st) callback = Ok f ∧
       resolved_exempt cls f = false ∧
       is_safe_method (method (st_request st)) = false ∧
       META (st_request st) !! "IDEMPOTENCY_KEY" = None).
Proof.
  split.
  - intros f Hf He Hs Hk.
    assert (Hpv : process_view settings cls enc callback st =
      (Ok (Some (length (st_heap st))),
       traced [EvLogError reject_reason (path (st_request st))]
         (with_heap (st_heap st ++ [bad_request])
            (with_request (request_after_flags f false (st_request st)) st)))).
    { rewrite process_view_run. unfold process_view_summary.
      by rewrite Hf, He, Hs, Hk. }
    eexists _, _. split; [exact Hpv|].
    split; [rewrite get_response_run, Hpv; reflexivity|].
    split; [unfold response_at; cbn; by rewrite lookup_app_r, Nat.sub_diag|].
    split; [reflexivity|].
    split; [by apply new_events_traced|reflexivity].
  - intros reason p. rewrite process_view_run. unfold process_view_summary.
    destruct (resolve_callback (st_request st) callback) as [f|e]; cbn.
    2: { rewrite new_events_same by reflexivity. by intros ?%elem_of_nil. }
    destruct (resolved_exempt cls f) eqn:He; cbn.
    { rewrite new_events_same by reflexivity. by intros ?%elem_of_nil. }
    destruct (is_safe_method (method (st_request st))) eqn:Hs; cbn.
    { rewrite new_events_same by reflexivity. by intros ?%elem_of_nil. }
    destruct (META (st_request st) !! "IDEMPOTENCY_KEY") as [key|] eqn:Hk;
      [|intros _; by exists f].
    destruct (retrieve_data _ _ _) as [[key_exists response] h].
    set (evs := [EvEncodeKey key; EvRetrieve _]).
    assert (Hno : EvLogError reason p ∉ evs).
    { subst evs. rewrite !not_elem_of_cons. repeat split; try done. apply not_elem_of_nil. }
    intros Hin. exfalso. apply Hno. revert Hin.
    destruct (negb (resolved_manual f) && key_exists);
      [destruct (_get_conflict_code settings) as [c|];
       [destruct response as [l|]; [destruct (h !! l)|]|]|];
      (erewrite new_events_traced by reflexivity); done.
Qed.

(** C3. A POST without the Idempotency-Key header, to a view that is not
    exempt, whose WSGI environment holds an entry [IDEMPOTENCY_KEY] of its
    own: [process_request] finds no header and leaves the entry in place,
    [process_view] takes the entry for the key, so the request is not
    rejected.  The encoder and the storage backend are called, the view runs,
    the answer is its 201 and it is stored; no rejection is logged. *)
Theorem headerless_post_with_environ_key_is_not_rejected (enc : KeyEncoder) :
  let request :=
    Scenario.client_request "POST" "/create-voucher/"
      {[ "IDEMPOTENCY_KEY"%string := Scenario.the_key ]} in
  let st := Scenario.arrived request Scenario.memory_start in
  let encoded_key :=
    encode_key enc
      (request_at_encoding Scenario.undecorated (request_after_process_request request))
      Scenario.the_key in
  let run :=
    Scenario.client Scenario.no_settings IdempotencyKeyMiddleware enc
      (PlainView Scenario.undecorated) Scenario.create_voucher request
      Scenario.memory_start in
  META request !! "HTTP_IDEMPOTENCY_KEY" = None ∧
  is_safe_method (method request) = false ∧
  (∃ st',
     process_view Scenario.no_settings IdempotencyKeyMiddleware enc
       (PlainView Scenario.undecorated) st = (Ok None, st') ∧
     idempotency_key_exempt (attrs (st_request st')) = Some false ∧
     new_events st st' = [EvEncodeKey Scenario.the_key; EvRetrieve encoded_key]) ∧
  run.1 = Ok 0%nat ∧
  response_at run.2 0%nat = Some Scenario.created ∧
  status_code Scenario.created = 201 ∧
  st_trace run.2 =
    [EvEncodeKey Scenario.the_key; EvRetrieve encoded_key; EvView;
     EvStore encoded_key 0%nat] ∧
  idempotency_key_cache_data (st_storage run.2) !! encoded_key = Some 0%nat.
Proof.
  cbn zeta. split; [reflexivity|]. split; [reflexivity|]. split.
  - eexists. rewrite process_view_run. unfold process_view_summary. cbn.
    split; [reflexivity|]. split; reflexivity.
  - unfold Scenario.client.
    rewrite (call_proceeds_run Scenario.no_settings IdempotencyKeyMiddleware enc
               (PlainView Scenario.undecorated) Scenario.create_voucher _
               Scenario.undecorated Scenario.the_key false None []);
      [|reflexivity..].
    cbn. split; [reflexivity|]. split; [reflexivity|]. split; [reflexivity|].
    split; [reflexivity|]. apply lookup_insert_eq.
Qed.

(** ** Safe methods *)

(** A request with a safe verb whose callback resolves is marked exempt by
    [process_view] whatever the flags of the view; the encoder and the storage
    backend are not called, neither there nor in [process_response], and no
    key is asked for.  When the callback does not resolve, [process_view]
    raises at once, again without calling anything. *)
Lemma safe_method_is_exempt
    {S} `{!KeyStorage S} (settings : Settings) (cls : MiddlewareClass) (enc : KeyEncoder)
    (callback : Callback) (st : State S) :
  is_safe_method (method (st_request st)) = true →
  match resolve_callback (st_request st) callback with
  | Ok f =>
      ∃ st',
        process_view settings cls enc callback st = (Ok None, st') ∧
        idempotency_key_exempt (attrs (st_request st')) = Some true ∧
        new_events st st' = [] ∧
        st_storage st' = st_storage st ∧
        ∀ response, process_response response st' = (Ok response, st')
  | Raise e => process_view settings cls enc callback st = (Raise e, st)
  end.
Proof.
  intros Hs. rewrite process_view_run. unfold process_view_summary.
  destruct (resolve_callback (st_request st) callback) as [f|e]; [|done].
  rewrite Hs, orb_true_r. eexists. split; [done|]. split; [done|].
  split; [by apply new_events_same|]. split; [done|].
  intros response. by rewrite process_response_run.
Qed.

(** C4. An OPTIONS request routed to a viewset that has actions for POST
    only: the verb is safe, yet [process_view] raises [KeyError] in the
    lookup of the action, before it marks anything, and the request is left
    without [idempotency_key_exempt]. *)
Theorem safe_method_on_viewset_raises :
  let request :=
    request_after_process_request (Scenario.client_request "OPTIONS" "/vouchers/" ∅) in
  let st := with_request request Scenario.memory_start in
  is_safe_method (method request) = true ∧
  process_view Scenario.no_settings IdempotencyKeyMiddleware Scenario.MyEncoder
    Scenario.voucher_viewset st = (Raise (KeyError "options"), st) ∧
  idempotency_key_exempt (attrs (st_request st)) = None.
Proof. cbn zeta. split; [done|]. split; [|done]. by vm_compute. Qed.

(** ** Manual override *)

(** C5. On a route with the manual flag, a request that is not exempt and
    carries a key is never answered by [process_view], whatever the lookup
    finds: the view runs, and the request it receives carries the existence
    flag and the response that the lookup returned. *)
Theorem process_view_manual_override
    {S} `{!KeyStorage S} (settings : Settings) (cls : MiddlewareClass) (enc : KeyEncoder)
    (callback : Callback) (view : View) (st : State S) (f : ViewFunc) (key : string)
    (key_exists : bool) (response : option loc) (h : list HttpResponse) :
  resolve_callback (st_request st) callback = Ok f →
  resolved_exempt cls f = false →
  is_safe_method (method (st_request st)) = false →
  META (st_request st) !! "IDEMPOTENCY_KEY" = Some key →
  resolved_manual f = true →
  retrieve_data (st_storage st) (st_heap st)
    (encode_key enc (request_at_encoding f (st_request st)) key)
    = (key_exists, response, h) →
  ∃ st',
    process_view settings cls enc callback st = (Ok None, st') ∧
    idempotency_key_exists (attrs (st_request st')) = Some key_exists ∧
    idempotency_key_response (attrs (st_request st')) = Some response ∧
    idempotency_key_manual (attrs (st_request st')) = Some true ∧
    use_idempotency_key_manual_override (attrs (st_request st')) = Some true ∧
    st_heap st' = h ∧
    get_response settings cls enc callback view st =
      (Ok (length h),
       traced [EvView] (with_heap (h ++ [view (st_request st')]) st')).
Proof.
  intros Hf He Hs Hk Hm Hr.
  assert (Hpv : process_view settings cls enc callback st =
    (Ok None,
     traced [EvEncodeKey key;
             EvRetrieve (encode_key enc (request_at_encoding f (st_request st)) key)]
       (with_heap h
          (with_request
             (request_after_lookup f
                (encode_key enc (request_at_encoding f (st_request st)) key)
                key_exists response (st_request st)) st)))).
  { rewrite process_view_run. unfold process_view_summary.
    rewrite Hf, He, Hs, Hk. cbn. by rewrite Hr, Hm. }
  eexists. split; [exact Hpv|].
  repeat split; try reflexivity.
  - cbn. unfold request_at_encoding, request_after_flags. by rewrite Hm.
  - cbn. unfold request_at_encoding. by rewrite Hm.
  - rewrite get_response_run, Hpv. reflexivity.
Qed.

Lemma process_view_manual_override_witness :
  ∃ st',
    process_view Scenario.no_settings IdempotencyKeyMiddleware Scenario.MyEncoder
      (PlainView Scenario.decorated_manual)
      (Scenario.arrived (Scenario.keyed_post "/create-voucher-manual/")
         Scenario.after_first_post)
    = (Ok None, st') ∧
    idempotency_key_exists (attrs (st_request st')) = Some true ∧
    idempotency_key_response (attrs (st_request st')) = Some (Some 0%nat).
Proof.
  destruct (process_view_manual_override Scenario.no_settings IdempotencyKeyMiddleware
              Scenario.MyEncoder (PlainView Scenario.decorated_manual)
              Scenario.create_voucher_manual
              (Scenario.arrived (Scenario.keyed_post "/create-voucher-manual/")
                 Scenario.after_first_post)
              Scenario.decorated_manual Scenario.the_key true (Some 0%nat)
              [Scenario.created])
    as (st' & Hrun & Hexists & Hresp & _); [vm_compute; reflexivity..|].
  exists st'. split; [exact Hrun|]. split; [exact Hexists|exact Hresp].
Defined.

(** ** The check that [process_view] has run *)

(** C6. When [idempotency_key_done] is missing or false, [process_response]
    raises [ImproperlyConfigured] and returns no response; it leaves the state
    as it found it.  So a dispatch that answers without calling
    [process_view] makes [__call__] raise. *)
Theorem process_response_requires_process_view
    {S} `{!KeyStorage S} (st : State S) (response : loc) :
  idempotency_key_done (attrs (st_request st)) = None
  ∨ idempotency_key_done (attrs (st_request st)) = Some false →
  (∃ msg, process_response response st = (Raise (ImproperlyConfigured msg), st)) ∧
  (∀ (g : M S loc) (st0 st1 : State S),
     g (with_request (request_after_process_request (st_request st0)) st0)
       = (Ok response, st1) →
     st_request st1 = request_after_process_request (st_request st0) →
     ∃ msg, __call__ g st0 = (Raise (ImproperlyConfigured msg), st1)).
Proof.
  intros Hd. split.
  - rewrite process_response_run. unfold process_response_summary.
    destruct Hd as [-> | ->]; cbn; eauto.
  - intros g st0 st1 Hg Hreq. rewrite call_run, Hg, process_response_run.
    unfold process_response_summary. rewrite Hreq. cbn. eauto.
Qed.

Lemma process_response_requires_process_view_witness :
  let st := Scenario.arrived (Scenario.keyed_post "/create-voucher/") Scenario.memory_start in
  ∃ msg, process_response 0%nat st = (Raise (ImproperlyConfigured msg), st).
Proof.
  cbn zeta.
  apply (process_response_requires_process_view
           (Scenario.arrived (Scenario.keyed_post "/create-voucher/") Scenario.memory_start)
           0%nat).
  right. vm_compute. reflexivity.
Defined.

(** ** The recorded result under repeated requests *)

(** A second request finds the first response with status 409 in the
    in-memory backend, where 201 had been recorded; with a conflict status of
    200 and the cache backend, the second request stores again and the record
    has status 200. *)
Lemma duplicate_request_changes_recorded_result :
  let encoded_key := "0000000000000000000000000000000000000000000000000000000000000000"%string in
  let created := {| status_code := 201; content := Scenario.voucher_data |} in
  let post :=
    Scenario.client Scenario.no_settings IdempotencyKeyMiddleware Scenario.MyEncoder
      (PlainView Scenario.undecorated) Scenario.create_voucher
      (Scenario.keyed_post "/create-voucher/") in
  let first := post Scenario.memory_start in
  let second := post first.2 in
  let post_200 :=
    Scenario.client (Scenario.conflict_status (Some 200)) IdempotencyKeyMiddleware
      Scenario.MyEncoder (PlainView Scenario.undecorated) Scenario.create_voucher
      (Scenario.keyed_post "/create-voucher/") in
  let first_200 := post_200 Scenario.cache_start in
  let second_200 := post_200 first_200.2 in
  (memory_recorded first.2 encoded_key = Some created ∧
   memory_recorded second.2 encoded_key = Some (set_status_code 409 created) ∧
   (memory_recorded second.2 encoded_key ≠ memory_recorded first.2 encoded_key)) ∧
  (cache_recorded first_200.2 encoded_key = Some created ∧
   cache_recorded second_200.2 encoded_key = Some (set_status_code 200 created) ∧
   new_events first_200.2 second_200.2 =
     [EvEncodeKey Scenario.the_key; EvRetrieve encoded_key; EvStore encoded_key 1%nat]).
Proof. cbn zeta. repeat split; by vm_compute. Qed.

(** C7. A request that is not exempt, not on a manual route, and whose
    encoded key is recorded, goes through [__call__] without the view being
    called, and is answered with the object that [retrieve_data] handed out:
    its content is as recorded, and its status code has been overwritten in
    place with the conflict status (it stays as recorded when the conflict
    status is None); no other response object changes.  [store_data] is
    called again exactly when that final status lies between 200 and 207;
    otherwise, and so with the default 409, the storage backend is left as it
    was. *)
Theorem duplicate_request_storage
    {S} `{!KeyStorage S} (settings : Settings) (cls : MiddlewareClass) (enc : KeyEncoder)
    (callback : Callback) (view : View) (st : State S) (f : ViewFunc) (key : string)
    (l : loc) (r : HttpResponse) (h : list HttpResponse) :
  let request := request_after_process_request (st_request st) in
  let encoded_key := encode_key enc (request_at_encoding f request) key in
  let status := default (status_code r) (_get_conflict_code settings) in
  resolve_callback request callback = Ok f →
  resolved_exempt cls f = false →
  is_safe_method (method request) = false →
  META request !! "IDEMPOTENCY_KEY" = Some key →
  resolved_manual f = false →
  retrieve_data (st_storage st) (st_heap st) encoded_key = (true, Some l, h) →
  h !! l = Some r →
  ∃ st',
    __call__ (get_response settings cls enc callback view) st = (Ok l, st') ∧
    response_at st' l = Some (set_status_code status r) ∧
    (∀ l', l' ≠ l → st_heap st' !! l' = h !! l') ∧
    (EvView ∉ new_events st st') ∧
    (if is_stored_status status
     then new_events st st' =
            [EvEncodeKey key; EvRetrieve encoded_key; EvStore encoded_key l] ∧
          st_storage st' = store_data (st_storage st) (st_heap st') encoded_key l
     else new_events st st' = [EvEncodeKey key; EvRetrieve encoded_key] ∧
          st_storage st' = st_storage st) ∧
    (_get_conflict_code settings = Some HTTP_409_CONFLICT → st_storage st' = st_storage st).
Proof.
  cbn zeta. intros Hf He Hs Hk Hm Hr Hl.
  rewrite (call_short_circuit_run settings cls enc callback view st f key l r h
             Hf He Hs Hk Hm Hr Hl).
  set (request := request_after_process_request (st_request st)) in *.
  set (encoded_key := encode_key enc (request_at_encoding f request) key) in *.
  set (status := default (status_code r) (_get_conflict_code settings)).
  assert (Hlook : <[l := set_status_code status r]> h !! l = Some (set_status_code status r)).
  { apply list_lookup_insert_eq. by eapply lookup_lt_Some. }
  destruct (is_stored_status status) eqn:Hst.
  - eexists. split; [reflexivity|]. unfold response_at.
    match goal with
    | |- context [new_events st ?s] =>
        assert (Hev : new_events st s =
                  [EvEncodeKey key; EvRetrieve encoded_key; EvStore encoded_key l])
          by (apply new_events_traced; cbn; by rewrite <- app_assoc)
    end.
    rewrite Hev. cbn [st_heap traced with_storage with_heap st_storage].
    split; [done|].
    split; [intros l' Hne; by apply list_lookup_insert_ne|].
    split; [rewrite !not_elem_of_cons; repeat split; try done; apply not_elem_of_nil|].
    split; [done|].
    intros Hc. subst status. rewrite Hc in Hst. done.
  - eexists. split; [reflexivity|]. unfold response_at.
    match goal with
    | |- context [new_events st ?s] =>
        assert (Hev : new_events st s = [EvEncodeKey key; EvRetrieve encoded_key])
          by (by apply new_events_traced)
    end.
    rewrite Hev. cbn [st_heap traced with_storage with_heap st_storage].
    split; [done|].
    split; [intros l' Hne; by apply list_lookup_insert_ne|].
    split; [rewrite !not_elem_of_cons; repeat split; try done; apply not_elem_of_nil|].
    done.
Qed.

Lemma duplicate_request_storage_witness :
  let st := with_request (Scenario.keyed_post "/create-voucher/") Scenario.after_first_post in
  ∃ st',
    __call__ (get_response Scenario.no_settings IdempotencyKeyMiddleware Scenario.MyEncoder
                (PlainView Scenario.undecorated) Scenario.create_voucher) st
    = (Ok 0%nat, st') ∧
    response_at st' 0%nat = Some (set_status_code 409 Scenario.created) ∧
    st_storage st' = st_storage st.
Proof.
  cbn zeta.
  destruct (duplicate_request_storage Scenario.no_settings IdempotencyKeyMiddleware
              Scenario.MyEncoder (PlainView Scenario.undecorated) Scenario.create_voucher
              (with_request (Scenario.keyed_post "/create-voucher/")
                 Scenario.after_first_post)
              Scenario.undecorated Scenario.the_key 0%nat Scenario.created
              [Scenario.created])
    as (st' & Hrun & Hresp & _ & _ & _ & Hsame); [vm_compute; reflexivity..|].
  exists st'. split; [exact Hrun|]. split; [exact Hresp|]. apply Hsame. reflexivity.
Defined.

(** ** The default encoder and the duplicate-request scenario *)

(** The digest function on the test vectors of FIPS 180-4 (one and two
    blocks). *)
Example sha256_abc :
  SHA256.hexdigest "abc" =
  "ba7816bf8f01cfea414140de5dae2223b00361a396177a9cb410ff61f20015ad"%string.
Proof. by vm_compute. Qed.

Example sha256_two_blocks :
  SHA256.hexdigest "abcdbcdecdefdefgefghfghighijhijkijkljklmklmnlmnomnopnopq" =
  "248d6a61d20638b8e5c026930c3e6039a33ce45964ff2167f6ecedd419db06c1"%string.
Proof. by vm_compute. Qed.





(** ** Exemption in the allow-by-default class *)

(** A view that carries both [idempotency_key] and
    [idempotency_key_exempt = True] opts in, and is resolved as exempt. *)
Lemma explicit_exempt_wins_over_opt_in :
  let st := with_request (Scenario.keyed_post "/create-voucher-exempt-test-1/")
              Scenario.memory_start in
  let run := Exempt_set_flags_from_callback (PlainView Scenario.decorated_key_and_exempt) st in
  opts_in Scenario.decorated_key_and_exempt = true ∧
  run.1 = Ok tt ∧
  idempotency_key_exempt (attrs (st_request run.2)) = Some true ∧
  idempotency_key_exempt (attrs (st_request run.2))
    ≠ Some (negb (opts_in Scenario.decorated_key_and_exempt)).
Proof. cbn zeta. by vm_compute. Qed.

(** C9. In [ExemptIdempotencyKeyMiddleware], a request whose callback
    resolves to the view function [f] is resolved as exempt exactly when [f]
    is marked [idempotency_key_exempt = True] or does not opt in (no true
    [idempotency_key], no [idempotency_key_exempt = False], no manual flag);
    [idempotency_key_manual] is the manual flag of [f]. *)
Theorem Exempt_set_flags_resolves
    {S} `{!KeyStorage S} (callback : Callback) (st : State S) (f : ViewFunc) :
  resolve_callback (st_request st) callback = Ok f →
  ∃ st',
    Exempt_set_flags_from_callback callback st = (Ok tt, st') ∧
    idempotency_key_exempt (attrs (st_request st')) =
      Some (bool_decide (vf_idempotency_key_exempt f = Some true) || negb (opts_in f)) ∧
    idempotency_key_manual (attrs (st_request st')) = Some (resolved_manual f).
Proof.
  intros Hf. unfold Exempt_set_flags_from_callback. run_monad. rewrite Hf.
  eexists. split; [reflexivity|]. split; [|reflexivity]. cbn.
  unfold opts_in, resolved_manual, py_or, truthy.
  by destruct (vf_idempotency_key_exempt f) as [[]|], (vf_idempotency_key f) as [[]|],
    (vf_idempotency_key_manual f) as [[]|].
Qed.

Lemma Exempt_set_flags_resolves_witness :
  ∃ st',
    Exempt_set_flags_from_callback (PlainView Scenario.decorated_idempotency_key)
      (Scenario.arrived (Scenario.keyed_post "/create-voucher/") Scenario.memory_start)
    = (Ok tt, st') ∧
    idempotency_key_exempt (attrs (st_request st')) = Some false.
Proof.
  destruct (Exempt_set_flags_resolves (PlainView Scenario.decorated_idempotency_key)
              (Scenario.arrived (Scenario.keyed_post "/create-voucher/")
                 Scenario.memory_start)
              Scenario.decorated_idempotency_key)
    as (st' & Hrun & Hexempt & _); [reflexivity|].
  exists st'. split; [exact Hrun|exact Hexempt].
Defined.

(** ** What the request carries after [process_view] *)

(** C10. After [process_view] has returned, for either class, any callback
    and any verb, the request carries boolean [idempotency_key_exempt] and
    [idempotency_key_manual] and [idempotency_key_done] is true; a request
    that is not exempt and has a key also carries
    [idempotency_key_encoded_key], [idempotency_key_exists] and
    [idempotency_key_response].  This is the request that the view receives
    when it runs, and the request as it stands when a response is returned
    in its place. *)
Theorem process_view_sets_attributes
    {S} `{!KeyStorage S} (settings : Settings) (cls : MiddlewareClass) (enc : KeyEncoder)
    (callback : Callback) (view : View) (st st' : State S) (res : option loc) :
  process_view settings cls enc callback st = (Ok res, st') →
  let a := attrs (st_request st') in
  (∃ b : bool, idempotency_key_exempt a = Some b) ∧
  (∃ b : bool, idempotency_key_manual a = Some b) ∧
  idempotency_key_done a = Some true ∧
  (idempotency_key_exempt a = Some false →
   is_Some (META (st_request st) !! "IDEMPOTENCY_KEY") →
   (∃ encoded_key : string, idempotency_key_encoded_key a = Some encoded_key) ∧
   (∃ key_exists : bool, idempotency_key_exists a = Some key_exists) ∧
   (∃ response : option loc, idempotency_key_response a = Some response)) ∧
  get_response settings cls enc callback view st =
    match res with
    | Some response => (Ok response, st')
    | None =>
        (Ok (length (st_heap st')),
         traced [EvView] (with_heap (st_heap st' ++ [view (st_request st')]) st'))
    end.
Proof.
  intros Hrun. pose proof (process_view_returns _ _ _ _ _ _ _ Hrun) as (f & Hf & Hinv).
  cbn zeta in Hinv. destruct Hinv as (_ & _ & _ & Hd & He & Hm & _ & Hkeyed).
  cbn zeta. split; [eauto|]. split; [eauto|]. split; [done|]. split.
  - intros Hne [key Hk]. rewrite He in Hne. injection Hne as Hne.
    specialize (Hkeyed Hne). rewrite Hk in Hkeyed.
    destruct Hkeyed as (key_exists & response & -> & -> & -> & _).
    repeat split; eexists; reflexivity.
  - rewrite get_response_run, Hrun. by destruct res.
Qed.

Lemma process_view_sets_attributes_witness :
  let run :=
    process_view Scenario.no_settings IdempotencyKeyMiddleware Scenario.MyEncoder
      (PlainView Scenario.undecorated)
      (Scenario.arrived (Scenario.keyed_post "/create-voucher/") Scenario.memory_start) in
  idempotency_key_done (attrs (st_request run.2)) = Some true ∧
  ∃ encoded_key : string,
    idempotency_key_encoded_key (attrs (st_request run.2)) = Some encoded_key.
Proof.
  cbn zeta.
  destruct (process_view_sets_attributes Scenario.no_settings IdempotencyKeyMiddleware
              Scenario.MyEncoder (PlainView Scenario.undecorated) Scenario.create_voucher
              (Scenario.arrived (Scenario.keyed_post "/create-voucher/")
                 Scenario.memory_start)
              (process_view Scenario.no_settings IdempotencyKeyMiddleware
                 Scenario.MyEncoder (PlainView Scenario.undecorated)
                 (Scenario.arrived (Scenario.keyed_post "/create-voucher/")
                    Scenario.memory_start)).2
              None)
    as (_ & _ & Hdone & Hkeyed & _); [vm_compute; reflexivity|].
  split; [exact Hdone|].
  apply Hkeyed; [vm_compute; reflexivity|].
  exists Scenario.the_key. vm_compute. reflexivity.
Defined.

(** * Further properties of the hooks *)

(** ** Requests that pass through *)

(** X1. An exempt request, by the flag of its view or by a safe verb, goes
    through [__call__] untouched by the protocol, with or without a key: the
    view is called once and its response is returned as it is; the encoder,
    the storage backend and the error log are not called, and no encoded key
    is put on the request. *)
Theorem exempt_request_passes_through
    {S} `{!KeyStorage S} (settings : Settings) (cls : MiddlewareClass) (enc : KeyEncoder)
    (callback : Callback) (view : View) (st : State S) (f : ViewFunc) :
  let request := request_after_process_request (st_request st) in
  resolve_callback request callback = Ok f →
  resolved_exempt cls f || is_safe_method (method request) = true →
  ∃ st',
    __call__ (get_response settings cls enc callback view) st
      = (Ok (length (st_heap st)), st') ∧
    st_heap st' = st_heap st ++ [view (request_after_flags f true request)] ∧
    new_events st st' = [EvView] ∧
    st_storage st' = st_storage st ∧
    idempotency_key_exempt (attrs (st_request st')) = Some true ∧
    idempotency_key_encoded_key (attrs (st_request st'))
      = idempotency_key_encoded_key (attrs (st_request st)).
Proof.
  cbn zeta. intros Hf He.
  rewrite call_run, get_response_run, process_view_run. unfold process_view_summary.
  cbn [st_request with_request]. rewrite Hf, He.
  rewrite process_response_run. unfold process_response_summary.
  cbn [st_request traced with_heap with_request request_after_flags with_attrs attrs
       idempotency_key_done idempotency_key_exempt set_exempt set_done default negb].
  eexists. split; [reflexivity|].
  split; [reflexivity|]. split; [by apply new_events_traced|].
  split; [reflexivity|]. split; [reflexivity|].
  cbn. unfold request_after_process_request.
  by destruct (META (st_request st) !! "HTTP_IDEMPOTENCY_KEY").
Qed.

Lemma exempt_request_passes_through_witness :
  ∃ st',
    __call__ (get_response Scenario.no_settings ExemptIdempotencyKeyMiddleware
                Scenario.MyEncoder (PlainView Scenario.undecorated) Scenario.create_voucher)
      (with_request (Scenario.keyed_post "/create-voucher-no-decorators/")
         Scenario.after_first_post)
    = (Ok 1%nat, st') ∧
    new_events
      (with_request (Scenario.keyed_post "/create-voucher-no-decorators/")
         Scenario.after_first_post) st' = [EvView].
Proof.
  destruct (exempt_request_passes_through Scenario.no_settings
              ExemptIdempotencyKeyMiddleware Scenario.MyEncoder
              (PlainView Scenario.undecorated) Scenario.create_voucher
              (with_request (Scenario.keyed_post "/create-voucher-no-decorators/")
                 Scenario.after_first_post)
              Scenario.undecorated)
    as (st' & Hrun & _ & Hev & _); [vm_compute; reflexivity..|].
  exists st'. split; [exact Hrun|exact Hev].
Defined.

(** X2. A request that is not exempt and has no key goes through
    [__call__] as a rejection: the answer is the new 400 response, which
    [process_response] passes on without looking for an encoded key; the view,
    the encoder and the storage backend are not called. *)
Theorem keyless_request_is_rejected
    {S} `{!KeyStorage S} (settings : Settings) (cls : MiddlewareClass) (enc : KeyEncoder)
    (callback : Callback) (view : View) (st : State S) (f : ViewFunc) :
  let request := request_after_process_request (st_request st) in
  resolve_callback request callback = Ok f →
  resolved_exempt cls f = false →
  is_safe_method (method request) = false →
  META request !! "IDEMPOTENCY_KEY" = None →
  ∃ st',
    __call__ (get_response settings cls enc callback view) st
      = (Ok (length (st_heap st)), st') ∧
    st_heap st' = st_heap st ++ [bad_request] ∧
    new_events st st' = [EvLogError reject_reason (path request)] ∧
    st_storage st' = st_storage st ∧
    idempotency_key_exempt (attrs (st_request st')) = Some false ∧
    idempotency_key_encoded_key (attrs (st_request st'))
      = idempotency_key_encoded_key (attrs (st_request st)).
Proof.
  cbn zeta. intros Hf He Hs Hk.
  set (request := request_after_process_request (st_request st)) in *.
  rewrite call_run, get_response_run, process_view_run. unfold process_view_summary.
  cbn [st_request with_request]. fold request. rewrite Hf, He, Hs, Hk. cbn [orb].
  rewrite process_response_run. unfold process_response_summary.
  cbn [st_request st_heap traced with_heap with_request].
  assert (Hd : idempotency_key_done (attrs (request_after_flags f false request)) = Some true)
    by reflexivity.
  assert (Hx : idempotency_key_exempt (attrs (request_after_flags f false request))
               = Some false) by reflexivity.
  assert (Hm : method (request_after_flags f false request) = method request)
    by reflexivity.
  rewrite Hd, Hx, Hm, Hs, lookup_app_r, Nat.sub_diag by done.
  cbn [lookup list_lookup default from_option id negb].
  eexists. split; [reflexivity|].
  split; [reflexivity|]. split; [by apply new_events_traced|].
  split; [reflexivity|]. split; [reflexivity|].
  subst request. cbn. unfold request_after_process_request.
  by destruct (META (st_request st) !! "HTTP_IDEMPOTENCY_KEY").
Qed.

Lemma keyless_request_is_rejected_witness :
  ∃ st',
    __call__ (get_response Scenario.no_settings IdempotencyKeyMiddleware
                Scenario.MyEncoder (PlainView Scenario.undecorated) Scenario.create_voucher)
      (with_request (Scenario.keyless_post "/create-voucher/") Scenario.memory_start)
    = (Ok 0%nat, st') ∧
    st_heap st' = [bad_request].
Proof.
  destruct (keyless_request_is_rejected Scenario.no_settings IdempotencyKeyMiddleware
              Scenario.MyEncoder (PlainView Scenario.undecorated) Scenario.create_voucher
              (with_request (Scenario.keyless_post "/create-voucher/") Scenario.memory_start)
              Scenario.undecorated)
    as (st' & Hrun & Hheap & _); [vm_compute; reflexivity..|].
  exists st'. split; [exact Hrun|exact Hheap].
Defined.

(** ** What the hooks leave alone *)

(** X3. [process_response] hands back the response it was given and never
    touches the request or a response object.  When it raises, the state is as
    before; when it returns, the state is as before or differs by one call of
    [store_data], made under the encoded key of the request for a response
    with a status between 200 and 207 to a request that is not exempt. *)
Theorem process_response_frame
    {S} `{!KeyStorage S} (response : loc) (st : State S) :
  let run := process_response response st in
  st_request run.2 = st_request st ∧
  st_heap run.2 = st_heap st ∧
  (∀ l, run.1 = Ok l → l = response) ∧
  (∀ e, run.1 = Raise e → run.2 = st) ∧
  (run.2 = st ∨
   ∃ encoded_key r,
     idempotency_key_encoded_key (attrs (st_request st)) = Some encoded_key ∧
     idempotency_key_exempt (attrs (st_request st)) = Some false ∧
     is_safe_method (method (st_request st)) = false ∧
     st_heap st !! response = Some r ∧
     200 ≤ status_code r ≤ 207 ∧
     run.2 = traced [EvStore encoded_key response]
               (with_storage
                  (store_data (st_storage st) (st_heap st) encoded_key response) st)).
Proof.
  cbn zeta. rewrite process_response_run. unfold process_response_summary.
  destruct (negb (default false (idempotency_key_done (attrs (st_request st)))));
    [by repeat split; eauto|].
  destruct (idempotency_key_exempt (attrs (st_request st))) as [[]|] eqn:He;
    cbn [default from_option id]; try (by repeat split; eauto; intros ? [= <-]).
  destruct (is_safe_method (method (st_request st))) eqn:Hs;
    [by repeat split; eauto; intros ? [= <-]|].
  destruct (st_heap st !! response) as [r|] eqn:Hr; [|by repeat split; eauto].
  destruct (is_stored_status (status_code r)) eqn:Hst;
    [|by repeat split; eauto; intros ? [= <-]].
  destruct (idempotency_key_encoded_key (attrs (st_request st))) as [encoded_key|] eqn:Hk;
    [|by repeat split; eauto].
  apply is_stored_status_range in Hst.
  split; [done|]. split; [done|]. split; [by intros ? [= <-]|]. split; [done|].
  right. exists encoded_key, r. done.
Qed.

(** X4. [process_view] never writes to the storage backend and never
    changes the verb, path, body or environment of the request, whatever it
    returns or raises.  It calls nothing, or logs one rejection, or calls the
    encoder once, on the key of the environment, and then [retrieve_data]
    once, on the encoded key. *)
Theorem process_view_frame
    {S} `{!KeyStorage S} (settings : Settings) (cls : MiddlewareClass) (enc : KeyEncoder)
    (callback : Callback) (st : State S) :
  let run := process_view settings cls enc callback st in
  let request := st_request st in
  st_storage run.2 = st_storage st ∧
  method (st_request run.2) = method request ∧
  path (st_request run.2) = path request ∧
  body (st_request run.2) = body request ∧
  META (st_request run.2) = META request ∧
  (new_events st run.2 = [] ∨
   new_events st run.2 = [EvLogError reject_reason (path request)] ∨
   ∃ f key,
     resolve_callback request callback = Ok f ∧
     META request !! "IDEMPOTENCY_KEY" = Some key ∧
     new_events st run.2 =
       [EvEncodeKey key; EvRetrieve (encode_key enc (request_at_encoding f request) key)]).
Proof.
  cbn zeta. rewrite process_view_run. unfold process_view_summary.
  destruct (resolve_callback (st_request st) callback) as [f|e] eqn:Hf.
  2: { repeat split. left. by apply new_events_same. }
  destruct (resolved_exempt cls f || is_safe_method (method (st_request st))).
  { repeat split. left. by apply new_events_same. }
  destruct (META (st_request st) !! "IDEMPOTENCY_KEY") as [key|] eqn:Hk.
  2: { repeat split. right. left. by apply new_events_traced. }
  destruct (retrieve_data _ _ _) as [[key_exists response] h].
  assert (Hev : ∀ (res : Result (option loc)) st',
    st_trace st' = st_trace st ++
      [EvEncodeKey key;
       EvRetrieve (encode_key enc (request_at_encoding f (st_request st)) key)] →
    new_events st (res, st').2 = [] ∨
    new_events st (res, st').2 = [EvLogError reject_reason (path (st_request st))] ∨
    ∃ f0 key0,
      Ok f = Ok f0 ∧ Some key = Some key0 ∧
      new_events st (res, st').2 =
        [EvEncodeKey key0;
         EvRetrieve (encode_key enc (request_at_encoding f0 (st_request st)) key0)]).
  { intros res st' Ht. right. right. exists f, key. repeat split.
    by apply new_events_traced. }
  destruct (negb (resolved_manual f) && key_exists);
    [destruct (_get_conflict_code settings) as [c|];
     [destruct response as [l|]; [destruct (h !! l)|]|]|];
    (split; [reflexivity|]); (split; [reflexivity|]); (split; [reflexivity|]);
    (split; [reflexivity|]); (split; [reflexivity|]); by apply Hev.
Qed.

(** ** The two classes *)

(** X5. The two middleware classes differ only on views that say nothing:
    when the view has an [idempotency_key_exempt] attribute, a true
    [idempotency_key], or the manual flag, or when the verb is safe,
    [process_view] of [IdempotencyKeyMiddleware] and of
    [ExemptIdempotencyKeyMiddleware] do the same.  For a view with none of
    these and a verb that is not safe, the allow-by-default class lets the
    request through as exempt, while the deny-by-default class marks it as
    not exempt. *)
Theorem classes_differ_on_undecorated_views
    {S} `{!KeyStorage S} (settings : Settings) (enc : KeyEncoder)
    (callback : Callback) (st : State S) (f : ViewFunc) :
  resolve_callback (st_request st) callback = Ok f →
  let deny := process_view settings IdempotencyKeyMiddleware enc callback st in
  let allow := process_view settings ExemptIdempotencyKeyMiddleware enc callback st in
  let silent :=
    bool_decide (vf_idempotency_key_exempt f = None)
    && negb (truthy (vf_idempotency_key f))
    && negb (resolved_manual f) in
  (silent && negb (is_safe_method (method (st_request st))) = false → deny = allow) ∧
  (silent && negb (is_safe_method (method (st_request st))) = true →
   allow = (Ok None, with_request (request_after_flags f true (st_request st)) st) ∧
   idempotency_key_exempt (attrs (st_request deny.2)) = Some false).
Proof.
  intros Hf. cbn zeta. rewrite !process_view_run. unfold process_view_summary.
  rewrite Hf. clear Hf. destruct f as [[[]|] [[]|] [[]|]];
    destruct (is_safe_method (method (st_request st)));
    cbn [resolved_exempt resolved_manual py_or truthy vf_idempotency_key
         vf_idempotency_key_exempt vf_idempotency_key_manual
         default from_option id negb andb orb];
    rewrite ?bool_decide_eq_true_2, ?bool_decide_eq_false_2 by done;
    cbn [negb andb orb]; (split; [done|]); try done.
  all: intros _; split; [done|].
  all: destruct (META (st_request st) !! "IDEMPOTENCY_KEY") as [key|]; [|done].
  all: destruct (retrieve_data _ _ _) as [[key_exists response] h].
  all: destruct key_exists; cbn [andb]; [|done].
  all: destruct (_get_conflict_code settings) as [c|]; [|done].
  all: destruct response as [l|]; [|done].
  all: by destruct (h !! l).
Qed.

Lemma classes_differ_on_undecorated_views_witness :
  let st := Scenario.arrived (Scenario.keyless_post "/create-voucher-no-decorators/")
              Scenario.memory_start in
  process_view Scenario.no_settings ExemptIdempotencyKeyMiddleware Scenario.MyEncoder
    (PlainView Scenario.undecorated) st
  = (Ok None,
     with_request (request_after_flags Scenario.undecorated true (st_request st)) st) ∧
  idempotency_key_exempt
    (attrs (st_request
       (process_view Scenario.no_settings IdempotencyKeyMiddleware Scenario.MyEncoder
          (PlainView Scenario.undecorated) st).2)) = Some false.
Proof.
  cbn zeta.
  apply (classes_differ_on_undecorated_views Scenario.no_settings Scenario.MyEncoder
           (PlainView Scenario.undecorated)
           (Scenario.arrived (Scenario.keyless_post "/create-voucher-no-decorators/")
              Scenario.memory_start)
           Scenario.undecorated); reflexivity.
Defined.

(** ** Manual routes record every good answer *)

(** X6. On a route with the manual flag, a keyed request that is not exempt
    runs the view whether or not its key is recorded, the view is told which
    through [idempotency_key_exists], and an answer with a status between 200
    and 207 is stored under the encoded key, also when a record was found
    there. *)
Theorem manual_route_stores_again
    {S} `{!KeyStorage S} (settings : Settings) (cls : MiddlewareClass) (enc : KeyEncoder)
    (callback : Callback) (view : View) (st : State S) (f : ViewFunc) (key : string)
    (key_exists : bool) (response : option loc) (h : list HttpResponse) :
  let request := request_after_process_request (st_request st) in
  let encoded_key := encode_key enc (request_at_encoding f request) key in
  let seen := request_after_lookup f encoded_key key_exists response request in
  resolve_callback request callback = Ok f →
  resolved_exempt cls f = false →
  is_safe_method (method request) = false →
  META request !! "IDEMPOTENCY_KEY" = Some key →
  resolved_manual f = true →
  retrieve_data (st_storage st) (st_heap st) encoded_key = (key_exists, response, h) →
  200 ≤ status_code (view seen) ≤ 207 →
  ∃ st',
    __call__ (get_response settings cls enc callback view) st = (Ok (length h), st') ∧
    idempotency_key_exists (attrs seen) = Some key_exists ∧
    idempotency_key_response (attrs seen) = Some response ∧
    st_heap st' = h ++ [view seen] ∧
    new_events st st' =
      [EvEncodeKey key; EvRetrieve encoded_key; EvView; EvStore encoded_key (length h)] ∧
    st_storage st' =
      store_data (st_storage st) (h ++ [view seen]) encoded_key (length h).
Proof.
  cbn zeta. intros Hf He Hs Hk Hm Hr Hst.
  rewrite (call_proceeds_run settings cls enc callback view st f key key_exists response h
             Hf He Hs Hk Hr) by (by rewrite Hm).
  apply is_stored_status_range in Hst. rewrite Hst.
  eexists. split; [reflexivity|]. split; [reflexivity|]. split; [reflexivity|].
  split; [reflexivity|]. split; [|reflexivity].
  apply new_events_traced. cbn. by rewrite <- app_assoc.
Qed.

Lemma manual_route_stores_again_witness :
  ∃ st',
    __call__ (get_response Scenario.no_settings IdempotencyKeyMiddleware Scenario.MyEncoder
                (PlainView Scenario.decorated_manual) Scenario.create_voucher_manual)
      (with_request (Scenario.keyed_post "/create-voucher-manual/")
         Scenario.after_first_post)
    = (Ok 1%nat, st') ∧
    st_heap st' = [Scenario.created; set_status_code 200 Scenario.created] ∧
    idempotency_key_cache_data (st_storage st') !! Scenario.zeros = Some 1%nat.
Proof.
  destruct (manual_route_stores_again Scenario.no_settings IdempotencyKeyMiddleware
              Scenario.MyEncoder (PlainView Scenario.decorated_manual)
              Scenario.create_voucher_manual
              (with_request (Scenario.keyed_post "/create-voucher-manual/")
                 Scenario.after_first_post)
              Scenario.decorated_manual Scenario.the_key true (Some 0%nat)
              [Scenario.created])
    as (st' & Hrun & _ & _ & Hheap & _ & Hstore); [vm_compute; reflexivity..| |].
  { vm_compute. split; discriminate. }
  exists st'. split; [exact Hrun|]. split; [exact Hheap|].
  rewrite Hstore. vm_compute. reflexivity.
Defined.

(** ** Viewsets *)

(** X7. For a viewset the flags are those of the method that [actions]
    names for the verb: [process_view] does what it does for that method as
    a plain view.  When the viewset class has no such attribute the flags of
    the callback itself count; when [actions] has no entry for the verb,
    [process_view] raises [KeyError] and leaves the state as it was, for any
    verb. *)
Theorem viewset_dispatch
    {S} `{!KeyStorage S} (settings : Settings) (cls : MiddlewareClass) (enc : KeyEncoder)
    (own : ViewFunc) (actions : gmap string string) (methods : gmap string ViewFunc)
    (st : State S) :
  let verb := lower (method (st_request st)) in
  let run := process_view settings cls enc (ViewSetView own actions methods) st in
  (∀ name f,
     actions !! verb = Some name → methods !! name = Some f →
     run = process_view settings cls enc (PlainView f) st) ∧
  (∀ name,
     actions !! verb = Some name → methods !! name = None →
     run = process_view settings cls enc (PlainView own) st) ∧
  (actions !! verb = None → run = (Raise (KeyError verb), st)).
Proof.
  cbn zeta. rewrite !process_view_run. unfold process_view_summary.
  cbn [resolve_callback]. split; [|split].
  - intros name f -> Hn. rewrite Hn, process_view_run. reflexivity.
  - intros name -> Hn. rewrite Hn. reflexivity.
  - by intros ->.
Qed.

Lemma viewset_dispatch_witness :
  let st := Scenario.arrived (Scenario.keyed_post "/vouchers/") Scenario.memory_start in
  process_view Scenario.no_settings IdempotencyKeyMiddleware Scenario.MyEncoder
    Scenario.voucher_viewset st
  = process_view Scenario.no_settings IdempotencyKeyMiddleware Scenario.MyEncoder
      (PlainView Scenario.undecorated) st.
Proof.
  cbn zeta.
  apply (proj1 (viewset_dispatch Scenario.no_settings IdempotencyKeyMiddleware
                  Scenario.MyEncoder Scenario.undecorated
                  {[ "post"%string := "create"%string ]}
                  {[ "create"%string := Scenario.undecorated ]}
                  (Scenario.arrived (Scenario.keyed_post "/vouchers/")
                     Scenario.memory_start))
           "create"%string Scenario.undecorated); vm_compute; reflexivity.
Defined.

(** ** Entry of a request *)

(** X8. [process_request] sets [idempotency_key_done] to false, whatever it
    was, and copies the key header into the environment entry that
    [process_view] reads; without a header that entry stays as it was, as do
    all other entries, the other attributes, the heap, the storage backend and
    the trace.  Running it again changes nothing more. *)
Theorem process_request_effect {S} `{!KeyStorage S} (st : State S) :
  let run := process_request st in
  let request := st_request st in
  let request' := st_request run.2 in
  run.1 = Ok tt ∧
  idempotency_key_done (attrs request') = Some false ∧
  set_done false (attrs request') = set_done false (attrs request) ∧
  (method request', path request', body request') = (method request, path request, body request) ∧
  META request' !! "IDEMPOTENCY_KEY" =
    match META request !! "HTTP_IDEMPOTENCY_KEY" with
    | Some key => Some key
    | None => META request !! "IDEMPOTENCY_KEY"
    end ∧
  (∀ name, name ≠ "IDEMPOTENCY_KEY"%string → META request' !! name = META request !! name) ∧
  run.2 = with_request request' st ∧
  process_request run.2 = run.
Proof.
  cbn zeta. rewrite !process_request_run. cbn [fst snd st_request with_request].
  split; [done|]. split; [done|].
  split; [unfold request_after_process_request;
          by destruct (META (st_request st) !! "HTTP_IDEMPOTENCY_KEY")|].
  split; [unfold request_after_process_request;
          by destruct (META (st_request st) !! "HTTP_IDEMPOTENCY_KEY")|].
  split; [apply process_request_key|].
  split.
  { intros name Hn. unfold request_after_process_request.
    destruct (META (st_request st) !! "HTTP_IDEMPOTENCY_KEY") as [key|]; cbn; [|done].
    by apply lookup_insert_ne. }
  split; [done|].
  assert (Hidem : request_after_process_request
                    (request_after_process_request (st_request st))
                  = request_after_process_request (st_request st)).
  { generalize (st_request st). intros r. unfold request_after_process_request.
    destruct (META r !! "HTTP_IDEMPOTENCY_KEY") as [key|] eqn:Hk; cbn.
    - rewrite lookup_insert_ne, Hk by done. unfold with_attrs, with_META. cbn.
      by rewrite insert_insert_eq.
    - by rewrite Hk. }
  rewrite Hidem. reflexivity.
Qed.

(** ** What gets stored *)

(** The outcomes of [process_response]. *)
Lemma process_response_cases
    {S} `{!KeyStorage S} (response : loc) (st : State S) :
  let run := process_response response st in
  (∀ l, run.1 = Ok l → l = response) ∧
  (∀ e, run.1 = Raise e → run.2 = st) ∧
  (run.2 = st ∨
   ∃ encoded_key r,
     run.1 = Ok response ∧
     idempotency_key_encoded_key (attrs (st_request st)) = Some encoded_key ∧
     idempotency_key_exempt (attrs (st_request st)) = Some false ∧
     is_safe_method (method (st_request st)) = false ∧
     st_heap st !! response = Some r ∧
     200 ≤ status_code r ≤ 207 ∧
     run.2 = traced [EvStore encoded_key response]
               (with_storage
                  (store_data (st_storage st) (st_heap st) encoded_key response) st)).
Proof.
  cbn zeta. rewrite process_response_run. unfold process_response_summary.
  destruct (negb (default false (idempotency_key_done (attrs (st_request st)))));
    [by repeat split; eauto|].
  destruct (idempotency_key_exempt (attrs (st_request st))) as [[]|] eqn:He;
    cbn [default from_option id]; try (by repeat split; eauto; intros ? [= <-]).
  destruct (is_safe_method (method (st_request st))) eqn:Hs;
    [by repeat split; eauto; intros ? [= <-]|].
  destruct (st_heap st !! response) as [r|] eqn:Hr; [|by repeat split; eauto].
  destruct (is_stored_status (status_code r)) eqn:Hst;
    [|by repeat split; eauto; intros ? [= <-]].
  destruct (idempotency_key_encoded_key (attrs (st_request st))) as [encoded_key|] eqn:Hk;
    [|by repeat split; eauto].
  apply is_stored_status_range in Hst.
  split; [by intros ? [= <-]|]. split; [done|].
  right. exists encoded_key, r. done.
Qed.

(** The outcomes of [get_response]: what it has added to the trace, and
    what that says about the request and the response. *)
Lemma get_response_cases
    {S} `{!KeyStorage S} (settings : Settings) (cls : MiddlewareClass) (enc : KeyEncoder)
    (callback : Callback) (view : View) (st : State S) :
  let run := get_response settings cls enc callback view st in
  let request := st_request st in
  (st_trace run.2 = st_trace st ∧ ∃ e, run.1 = Raise e) ∨
  (st_trace run.2 = st_trace st ++ [EvView] ∧
   idempotency_key_exempt (attrs (st_request run.2)) = Some true) ∨
  (st_trace run.2 = st_trace st ++ [EvLogError reject_reason (path request)] ∧
   ∃ l, run.1 = Ok l ∧ st_heap run.2 !! l = Some bad_request) ∨
  (∃ f key,
     resolve_callback request callback = Ok f ∧
     META request !! "IDEMPOTENCY_KEY" = Some key ∧
     let encoded_key := encode_key enc (request_at_encoding f request) key in
     idempotency_key_encoded_key (attrs (st_request run.2)) = Some encoded_key ∧
     (st_trace run.2 = st_trace st ++ [EvEncodeKey key; EvRetrieve encoded_key] ∨
      st_trace run.2 = st_trace st ++ [EvEncodeKey key; EvRetrieve encoded_key; EvView])).
Proof.
  cbn zeta. rewrite get_response_run, process_view_run. unfold process_view_summary.
  destruct (resolve_callback (st_request st) callback) as [f|e] eqn:Hf.
  2: { left. eauto. }
  destruct (resolved_exempt cls f || is_safe_method (method (st_request st))).
  { right. left. done. }
  destruct (META (st_request st) !! "IDEMPOTENCY_KEY") as [key|] eqn:Hk.
  2: { right. right. left. split; [done|]. eexists. split; [done|].
       cbn. by rewrite lookup_app_r, Nat.sub_diag. }
  right. right. right. exists f, key. split; [done|]. split; [done|]. cbn zeta.
  destruct (retrieve_data _ _ _) as [[key_exists response] h].
  assert (Hek : ∀ e r,
    idempotency_key_encoded_key
      (attrs (request_after_lookup f
                (encode_key enc (request_at_encoding f (st_request st)) key) e r
                (st_request st)))
    = Some (encode_key enc (request_at_encoding f (st_request st)) key)) by done.
  destruct (negb (resolved_manual f) && key_exists);
    [destruct (_get_conflict_code settings) as [c|];
     [destruct response as [l|]; [destruct (h !! l)|]|destruct response as [l|]]|];
    cbn [fst snd st_request st_trace traced with_heap with_request];
    (split; [apply Hek|]);
    first [ by left | right; by rewrite <- app_assoc ].
Qed.

Ltac refute_elem H :=
  repeat (apply elem_of_cons in H as [H|H]; [discriminate H|]);
  by apply elem_of_nil in H.

(** X9. Whatever [__call__] stores in the course of one request is the
    response it returns, with a status between 200 and 207, filed under the
    encoding of the key of that request, after the one lookup of that key (and
    after the view, if it ran).  Nothing else is ever stored. *)
Theorem store_follows_lookup
    {S} `{!KeyStorage S} (settings : Settings) (cls : MiddlewareClass) (enc : KeyEncoder)
    (callback : Callback) (view : View) (st : State S)
    (encoded_key : string) (l : loc) :
  let run := __call__ (get_response settings cls enc callback view) st in
  let request := request_after_process_request (st_request st) in
  EvStore encoded_key l ∈ new_events st run.2 →
  run.1 = Ok l ∧
  (∃ r, st_heap run.2 !! l = Some r ∧ 200 ≤ status_code r ≤ 207) ∧
  ∃ f key,
    resolve_callback request callback = Ok f ∧
    META request !! "IDEMPOTENCY_KEY" = Some key ∧
    encoded_key = encode_key enc (request_at_encoding f request) key ∧
    (new_events st run.2 =
       [EvEncodeKey key; EvRetrieve encoded_key; EvStore encoded_key l] ∨
     new_events st run.2 =
       [EvEncodeKey key; EvRetrieve encoded_key; EvView; EvStore encoded_key l]).
Proof.
  cbn zeta. rewrite call_run.
  set (st1 := with_request (request_after_process_request (st_request st)) st).
  pose proof (get_response_cases settings cls enc callback view st1) as Hg.
  cbn zeta in Hg. subst st1. cbn [st_request with_request st_trace] in Hg.
  destruct (get_response settings cls enc callback view _) as [[response|e] st2] eqn:Hrun;
    cbn [fst snd] in *.
  2: { intros Hin. exfalso.
       destruct Hg as [[Ht _]|[[Ht _]|[[Ht _]|(f & key & _ & _ & _ & [Ht|Ht])]]];
         (erewrite new_events_traced in Hin by (rewrite Ht; reflexivity || by rewrite app_nil_r));
         refute_elem Hin. }
  pose proof (process_response_cases response st2) as (Hres & _ & Hcases). cbn zeta in *.
  destruct (process_response response st2) as [res st3]; cbn [fst snd] in *.
  destruct Hcases as [-> | (ek & r & -> & Hek & Hex & _ & Hr & Hst & ->)].
  { intros Hin. exfalso.
    destruct Hg as [[Ht _]|[[Ht _]|[[Ht _]|(f & key & _ & _ & _ & [Ht|Ht])]]];
      (erewrite new_events_traced in Hin by (rewrite Ht; reflexivity || by rewrite app_nil_r));
      refute_elem Hin. }
  destruct Hg as [[_ [e He]]|[[_ He]|[[_ (l' & Hl' & Hb)]|(f & key & Hf & Hk & Hek' & Ht)]]].
  - done.
  - congruence.
  - injection Hl' as <-. rewrite Hb in Hr. injection Hr as <-.
    unfold bad_request, HTTP_400_BAD_REQUEST in Hst. cbn in Hst. lia.
  - rewrite Hek' in Hek. injection Hek as <-.
    intros Hin.
    assert (Hev : ∃ tail,
      (tail = [] ∨ tail = [EvView]) ∧
      new_events st
        (traced [EvStore (encode_key enc (request_at_encoding f (request_after_process_request (st_request st))) key) response]
           (with_storage
              (store_data (st_storage st2) (st_heap st2)
                 (encode_key enc (request_at_encoding f (request_after_process_request (st_request st))) key) response)
              st2))
      = [EvEncodeKey key;
         EvRetrieve (encode_key enc (request_at_encoding f (request_after_process_request (st_request st))) key)]
        ++ tail
        ++ [EvStore (encode_key enc (request_at_encoding f (request_after_process_request (st_request st))) key) response]).
    { destruct Ht as [Ht|Ht]; [exists []|exists [EvView]]; (split; [eauto|]);
        apply new_events_traced; cbn; rewrite Ht; by rewrite <- app_assoc. }
    destruct Hev as (tail & Htail & Hev). rewrite Hev in Hin |- *.
    assert (encoded_key = encode_key enc (request_at_encoding f (request_after_process_request (st_request st))) key
            ∧ l = response) as [-> ->].
    { destruct Htail as [-> | ->]; cbn in Hin;
        repeat (apply elem_of_cons in Hin as [Hin|Hin];
                [first [discriminate Hin | by injection Hin as -> ->]|]);
        by apply elem_of_nil in Hin. }
    split; [done|]. split; [by exists r|].
    exists f, key. split; [done|]. split; [done|]. split; [done|].
    destruct Htail as [-> | ->]; [by left|by right].
Qed.

Lemma store_follows_lookup_witness :
  let st := with_request (Scenario.keyed_post "/create-voucher/") Scenario.memory_start in
  (__call__ (get_response Scenario.no_settings IdempotencyKeyMiddleware Scenario.MyEncoder
               (PlainView Scenario.undecorated) Scenario.create_voucher) st).1 = Ok 0%nat.
Proof.
  cbn zeta.
  apply (store_follows_lookup Scenario.no_settings IdempotencyKeyMiddleware
           Scenario.MyEncoder (PlainView Scenario.undecorated) Scenario.create_voucher
           (with_request (Scenario.keyed_post "/create-voucher/") Scenario.memory_start)
           Scenario.zeros 0%nat).
  vm_compute. do 3 right. left.
Defined.

(** ** Retrying and repeating *)

(** X10. A first attempt whose answer has a status outside 200..207 leaves
    the storage backend as it was, so when the backend had no record of the
    key, the same request sent again runs the view again, is told that the key
    does not exist, and is answered with what the view returns now; that
    answer is stored if its status is between 200 and 207. *)
Theorem failed_attempt_can_be_retried
    {S} `{!KeyStorage S} (settings : Settings) (cls : MiddlewareClass) (enc : KeyEncoder)
    (callback : Callback) (view1 view2 : View) (request : HttpRequest) (st : State S)
    (f : ViewFunc) (key : string) :
  let request1 := request_after_process_request request in
  let encoded_key := encode_key enc (request_at_encoding f request1) key in
  let seen := request_after_lookup f encoded_key false None request1 in
  let first :=
    __call__ (get_response settings cls enc callback view1) (with_request request st) in
  let second :=
    __call__ (get_response settings cls enc callback view2) (with_request request first.2) in
  let l := length (st_heap st) in
  resolve_callback request1 callback = Ok f →
  resolved_exempt cls f = false →
  is_safe_method (method request1) = false →
  META request1 !! "IDEMPOTENCY_KEY" = Some key →
  (∀ h, retrieve_data (st_storage st) h encoded_key = (false, None, h)) →
  ¬ 200 ≤ status_code (view1 seen) ≤ 207 →
  first.1 = Ok l ∧
  st_storage first.2 = st_storage st ∧
  st_heap first.2 = st_heap st ++ [view1 seen] ∧
  second.1 = Ok (l + 1)%nat ∧
  st_heap second.2 = st_heap st ++ [view1 seen; view2 seen] ∧
  new_events first.2 second.2 =
    [EvEncodeKey key; EvRetrieve encoded_key; EvView]
    ++ (if is_stored_status (status_code (view2 seen))
        then [EvStore encoded_key (l + 1)%nat] else []).
Proof.
  cbn zeta. intros Hf He Hs Hk Hr Hst.
  set (request1 := request_after_process_request request) in *.
  set (encoded_key := encode_key enc (request_at_encoding f request1) key) in *.
  set (seen := request_after_lookup f encoded_key false None request1) in *.
  assert (Hst' : is_stored_status (status_code (view1 seen)) = false).
  { destruct (is_stored_status _) eqn:E; [|done]. by apply is_stored_status_range in E. }
  rewrite (call_proceeds_run settings cls enc callback view1 (with_request request st)
             f key false None (st_heap st) Hf He Hs Hk (Hr _) (andb_false_r _)).
  change (st_request (with_request request st)) with request.
  fold request1 encoded_key seen. rewrite Hst'. cbn [fst snd].
  set (st1 := traced _ _).
  rewrite (call_proceeds_run settings cls enc callback view2 (with_request request st1)
             f key false None (st_heap st ++ [view1 seen]) Hf He Hs Hk (Hr _)
             (andb_false_r _)).
  change (st_request (with_request request st1)) with request.
  fold request1 encoded_key seen. cbn [fst snd].
  split; [done|]. split; [done|]. split; [done|].
  split; [by rewrite length_app|].
  rewrite length_app. cbn [length].
  destruct (is_stored_status (status_code (view2 seen))).
  - split; [cbn; by rewrite <- app_assoc|].
    apply new_events_traced. cbn. by rewrite <- app_assoc.
  - split; [cbn; by rewrite <- app_assoc|].
    by apply new_events_traced.
Qed.

Lemma failed_attempt_can_be_retried_witness :
  let post view :=
    __call__ (get_response Scenario.no_settings IdempotencyKeyMiddleware Scenario.MyEncoder
                (PlainView Scenario.undecorated) view) in
  let request := Scenario.keyed_post "/create-voucher/" in
  let first := post Scenario.failing (with_request request Scenario.memory_start) in
  let second := post Scenario.create_voucher (with_request request first.2) in
  first.1 = Ok 0%nat ∧ st_storage first.2 = st_storage Scenario.memory_start ∧
  second.1 = Ok 1%nat.
Proof.
  cbn zeta.
  destruct (failed_attempt_can_be_retried Scenario.no_settings IdempotencyKeyMiddleware
              Scenario.MyEncoder (PlainView Scenario.undecorated) Scenario.failing
              Scenario.create_voucher (Scenario.keyed_post "/create-voucher/")
              Scenario.memory_start Scenario.undecorated Scenario.the_key)
    as (H1 & H2 & _ & H3 & _); [vm_compute; reflexivity..| | |].
  - intros h. reflexivity.
  - vm_compute. intros [_ H]. apply H. reflexivity.
  - split; [exact H1|]. split; [exact H2|exact H3].
Defined.








(** ** The conflict status *)

(** X13. Of the settings only the conflict status matters to
    [process_view], and only when it answers from storage: two settings with
    the same conflict status give the same run, and any two settings give the
    same run for a request that is exempt, has no key, is on a manual route,
    or whose key the backend does not know. *)
Theorem conflict_status_only_on_short_circuit
    {S} `{!KeyStorage S} (settings1 settings2 : Settings) (cls : MiddlewareClass)
    (enc : KeyEncoder) (callback : Callback) (st : State S) :
  let request := st_request st in
  let quiet :=
    match resolve_callback request callback with
    | Raise _ => true
    | Ok f =>
        resolved_exempt cls f || is_safe_method (method request) || resolved_manual f
        || match META request !! "IDEMPOTENCY_KEY" with
           | None => true
           | Some key =>
               negb (retrieve_data (st_storage st) (st_heap st)
                       (encode_key enc (request_at_encoding f request) key)).1.1
           end
    end in
  _get_conflict_code settings1 = _get_conflict_code settings2 ∨ quiet = true →
  process_view settings1 cls enc callback st = process_view settings2 cls enc callback st.
Proof.
  cbn zeta. rewrite !process_view_run. unfold process_view_summary.
  destruct (resolve_callback (st_request st) callback) as [f|e]; [|done].
  destruct (resolved_exempt cls f || is_safe_method (method (st_request st))); [done|].
  destruct (META (st_request st) !! "IDEMPOTENCY_KEY") as [key|]; [|done].
  destruct (retrieve_data _ _ _) as [[key_exists response] h]. cbn [fst snd orb].
  destruct (resolved_manual f); [done|]. destruct key_exists; [|done].
  cbn [negb andb orb]. intros [-> | ?]; done.
Qed.

Lemma conflict_status_only_on_short_circuit_witness :
  let st := Scenario.arrived (Scenario.keyed_post "/create-voucher/") Scenario.memory_start in
  process_view Scenario.no_settings IdempotencyKeyMiddleware Scenario.MyEncoder
    (PlainView Scenario.undecorated) st
  = process_view (Scenario.conflict_status None) IdempotencyKeyMiddleware Scenario.MyEncoder
      (PlainView Scenario.undecorated) st.
Proof.
  cbn zeta.
  apply (conflict_status_only_on_short_circuit Scenario.no_settings
           (Scenario.conflict_status None) IdempotencyKeyMiddleware Scenario.MyEncoder
           (PlainView Scenario.undecorated)
           (Scenario.arrived (Scenario.keyed_post "/create-voucher/")
              Scenario.memory_start)).
  right. vm_compute. reflexivity.
Defined.
